(** * speechlab-mcp: the completion poller, the create/download tools and the
    file helpers, embedded from the Python sources.

  Source files embedded here:
  - [speechlab_mcp/client.py]  ([SpeechlabClient.create_project],
    [upload_media], [download_result], [generate_sharing_link],
    [wait_for_completion]);
  - [speechlab_mcp/server.py]  ([create_project_and_dub], [get_projects],
    [upload_media], [check_dubbing_status], [download_dubbing_result],
    [generate_sharing_link]);
  - [speechlab_mcp/utils.py]   ([make_error], [is_file_writeable],
    [make_output_file], [make_output_path], [handle_input_file],
    [check_media_file]).

  Conventions.  Python values coming out of [response.json()] are the
  inductive [json]; a Python [dict] is an association list in insertion
  order whose lookup takes the first binding of a key.  A Python [str] is a
  [string], one [ascii] per character.  Numbers are integers.  Code that
  performs effects is written in a state-and-exception monad [M S]: the
  state survives a raised exception, as the side effects of a Python
  function do.  What the remote API, the callback and the operating system
  answer is a parameter of each function.  Of the library calls the code
  makes, [time.sleep] refuses a negative length with [ValueError], and
  [open] walks the ".." parts of the path it is given. *)

From Stdlib Require Import String Ascii List ZArith Bool Lia DecimalString.
Import ListNotations.
Local Open Scope string_scope.
Set Warnings "-register-all".

(* ===================================================================== *)
(** ** Python values, exceptions and the effect monad *)
(* ===================================================================== *)

Module Py.

(** The exception classes the embedded code raises or meets.  The last two
    derive from [BaseException] only, so [except Exception] lets them
    through. *)
Inductive exn_class : Type :=
| AttributeError | TypeError | KeyError | ValueError
| HTTPStatusError | RequestError | SpeechlabMcpError
| ValidationError
| FileNotFoundError | FileExistsError | NotADirectoryError | IsADirectoryError
| PermissionError
| OtherException
| KeyboardInterrupt | SystemExit.

(** An exception: its class, [str(e)], and for an [httpx.HTTPStatusError] the
    [status_code] and [text] of [e.response]. *)
Record pyexn : Type := MkExn {
  exn_cls : exn_class;
  exn_msg : string;
  exn_response : option (Z * string)
}.

Definition PyExn (c : exn_class) (msg : string) : pyexn := MkExn c msg None.

(** [isinstance(e, Exception)]. *)
Definition is_Exception (e : pyexn) : bool :=
  match exn_cls e with
  | KeyboardInterrupt | SystemExit => false
  | _ => true
  end.

Inductive json : Type :=
| JNull
| JBool (b : bool)
| JNum (z : Z)
| JStr (s : string)
| JArr (l : list json)
| JObj (kvs : list (string * json)).

Inductive result (A : Type) : Type :=
| Ok (a : A)
| Raise (e : pyexn).
Arguments Ok {A} a.
Arguments Raise {A} e.

(** [d[k]] lookup in the association list of a dict. *)
Fixpoint assoc (k : string) (kvs : list (string * json)) : option json :=
  match kvs with
  | [] => None
  | (k', v) :: rest => if String.eqb k k' then Some v else assoc k rest
  end.

(** [v.get(k, dflt)]: only a dict has a [get]; every other JSON value raises
    [AttributeError]. *)
Definition py_get (v : json) (k : string) (dflt : json) : result json :=
  match v with
  | JObj kvs => match assoc k kvs with
                | Some x => Ok x
                | None => Ok dflt
                end
  | _ => Raise (PyExn AttributeError "object has no attribute 'get'")
  end.

(** [v[k]] on a dict ([KeyError] when absent); [TypeError] on the values
    that are not dicts (a list or a str indexed by a str, a number, None). *)
Definition py_item (v : json) (k : string) : result json :=
  match v with
  | JObj kvs => match assoc k kvs with
                | Some x => Ok x
                | None => Raise (PyExn KeyError k)
                end
  | _ => Raise (PyExn TypeError "indices must be integers or not subscriptable")
  end.

(** [k in v] as the sources use it, on the result of [response.json()]. *)
Definition py_contains (k : string) (v : json) : result bool :=
  match v with
  | JObj kvs => Ok (match assoc k kvs with Some _ => true | None => false end)
  | JArr l => Ok (existsb (fun x => match x with
                                     | JStr s => String.eqb s k
                                     | _ => false
                                     end) l)
  | JStr s => Ok (match index 0 k s with Some _ => true | None => false end)
  | _ => Raise (PyExn TypeError "argument is not iterable")
  end.

(** Truth value of a JSON value ([if v:], [not v], [a and b]). *)
Definition truthy (v : json) : bool :=
  match v with
  | JNull => false
  | JBool b => b
  | JNum z => negb (Z.eqb z 0)
  | JStr s => negb (String.eqb s "")
  | JArr l => match l with [] => false | _ => true end
  | JObj kvs => match kvs with [] => false | _ => true end
  end.

(** [v == "literal"]: a JSON value equals a str only when it is that str. *)
Definition eq_str (v : json) (s : string) : bool :=
  match v with
  | JStr t => String.eqb t s
  | _ => false
  end.

Fixpoint chars (s : string) : list json :=
  match s with
  | EmptyString => []
  | String c rest => JStr (String c EmptyString) :: chars rest
  end.

(** The items a [for x in v] loop visits: the elements of a list, the keys
    of a dict, the characters of a str; anything else is not iterable. *)
Definition py_iter (v : json) : result (list json) :=
  match v with
  | JArr l => Ok l
  | JObj kvs => Ok (map (fun kv => JStr (fst kv)) kvs)
  | JStr s => Ok (chars s)
  | _ => Raise (PyExn TypeError "object is not iterable")
  end.

(** [str(v)] inside an f-string, for the values the tools print. *)
Definition str_of (v : json) : string :=
  match v with
  | JStr s => s
  | JNull => "None"
  | JBool true => "True"
  | JBool false => "False"
  | _ => "<value>"
  end.

(** The monad: a computation reads and updates a state [S] and either
    returns or raises; the state is kept in both cases. *)
Definition M (S A : Type) : Type := S -> result A * S.

Definition ret {S A} (a : A) : M S A := fun s => (Ok a, s).

Definition bind {S A B} (c : M S A) (k : A -> M S B) : M S B :=
  fun s => match c s with
           | (Ok a, s') => k a s'
           | (Raise e, s') => (Raise e, s')
           end.

Definition raise {S A} (e : pyexn) : M S A := fun s => (Raise e, s).

Definition lift {S A} (r : result A) : M S A := fun s => (r, s).

(** [try: body  except Exception as e: handler(e)]. *)
Definition try_except_Exception {S A}
    (body : M S A) (handler : pyexn -> M S A) : M S A :=
  fun s => match body s with
           | (Raise e, s') =>
               if is_Exception e then handler e s' else (Raise e, s')
           | r => r
           end.

(** [try: body  except httpx.HTTPStatusError as e: handler(e)]. *)
Definition try_except_HTTPStatusError {S A}
    (body : M S A) (handler : pyexn -> M S A) : M S A :=
  fun s => match body s with
           | (Raise e, s') =>
               match exn_cls e with
               | HTTPStatusError => handler e s'
               | _ => (Raise e, s')
               end
           | r => r
           end.

Definition when {S} (b : bool) (c : M S unit) : M S unit :=
  if b then c else ret tt.

End Py.

Import Py.

Declare Scope py_scope.
Delimit Scope py_scope with py.
Notation "x <- c ;; k" := (bind c (fun x => k))
(at level 61, c at next level, right associativity) : py_scope.
Notation "c ;; k" := (bind c (fun _ => k))
(at level 61, right associativity) : py_scope.
Local Open Scope py_scope.

(* ===================================================================== *)
(** ** client.py: the completion poller *)
(* ===================================================================== *)

Module Client.

Inductive loglevel : Type := Info | Warning | Error.

(** The log lines of [wait_for_completion] and [get_project_status], by the
    place they are written at; [attempt] is the loop variable. *)
Inductive logline : Type :=
| LogGetting                       (* "Getting status for project ..." *)
| LogRetrieved                     (* "Retrieved project status" *)
| LogHttpError                     (* "HTTP error when getting project status" *)
| LogWaiting                       (* "Waiting for project ... to complete" *)
| LogPoll (attempt : nat) (status : json)
| LogCompleted (attempt : nat)
| LogFailed (attempt : nat)
| LogStillProcessing (attempt : nat) (progress : string)
| LogSleeping                      (* "Waiting {delay_seconds}s before next check..." *)
| LogErrorChecking (attempt : nat) (e : pyexn)
| LogMaxAttempts.                  (* "Maximum attempts (...) reached without completion." *)

Inductive event : Type :=
| EGetProject (project_id : string)      (* GET {base_url}/projects/{id}?expand=true *)
| ECallback (attempt : nat) (project_data : json)
| ESleep (seconds : Z)
| ELog (lvl : loglevel) (line : logline).

(** What one call of the remote status endpoint produces: the parsed body,
    or the exception [client.get], [raise_for_status] or [json()] raised. *)
Inductive fetch_result : Type :=
| FetchOk (project_data : json)
| FetchErr (e : pyexn).

(** State of one run: how many status requests were sent, and everything
    observable the run did, oldest first. *)
Record PollState : Type := mkPoll { fetches : nat; trace : list event }.

Definition init : PollState := mkPoll 0 [].

Definition emit (e : event) : M PollState unit :=
  fun s => (Ok tt, mkPoll (fetches s) (trace s ++ [e])).

Definition log (lvl : loglevel) (line : logline) : M PollState unit :=
  emit (ELog lvl line).

Section Poller.

(** [remote k] is the answer to the [k]-th status request of the run
    (counting from 0). *)
Variable remote : nat -> fetch_result.

(** The [callback] argument: [None] when absent; otherwise what calling it
    with the attempt index and the payload does, [None] for a normal
    return and [Some e] when it raises [e]. *)
Variable callback : option (nat -> json -> option pyexn).

Definition http_get_project (project_id : string) : M PollState json :=
  fun s =>
    let s' := mkPoll (S (fetches s)) (trace s ++ [EGetProject project_id]) in
    match remote (fetches s) with
    | FetchOk d => (Ok d, s')
    | FetchErr e => (Raise e, s')
    end.

(** [SpeechlabClient.get_project_status]. *)
Definition get_project_status (project_id : string) : M PollState json :=
  log Info LogGetting ;;
  try_except_HTTPStatusError
    (project_data <- http_get_project project_id ;;
     log Info LogRetrieved ;;
     ret project_data)
    (fun e => log Error LogHttpError ;; raise e).

Definition call_callback (attempt : nat) (project_data : json)
  : M PollState unit :=
  match callback with
  | None => ret tt
  | Some f =>
      emit (ECallback attempt project_data) ;;
      match f attempt project_data with
      | None => ret tt
      | Some e => raise e
      end
  end.

(** What [time.sleep] raises when it is given a negative length. *)
Definition sleep_error : pyexn :=
  PyExn ValueError "sleep length must be non-negative".

(** [time.sleep(seconds)]: a negative length is refused with [ValueError],
    and then nothing is slept. *)
Definition time_sleep (seconds : Z) : M PollState unit :=
  if (seconds <? 0)%Z then raise sleep_error else emit (ESleep seconds).

(** [if attempt < max_attempts - 1:] the log line, then
    [time.sleep(delay_seconds)]. *)
Definition sleep_unless_last (attempt : nat) (max_attempts delay_seconds : Z)
  : M PollState unit :=
  when (Z.of_nat attempt <? max_attempts - 1)%Z
       (log Info LogSleeping ;; time_sleep delay_seconds).

(** The body of the [for] loop of [wait_for_completion]: [Some b] when it
    executes [return b], [None] when it reaches the end of the iteration. *)
Definition attempt_body (project_id : string) (max_attempts delay_seconds : Z)
    (attempt : nat) : M PollState (option bool) :=
  try_except_Exception
    (project_data <- get_project_status project_id ;;
     job <- lift (py_get project_data "job" (JObj [])) ;;
     status <- lift (py_get job "status" (JStr "UNKNOWN")) ;;
     log Info (LogPoll attempt status) ;;
     call_callback attempt project_data ;;
     if eq_str status "COMPLETE" then
       log Info (LogCompleted attempt) ;; ret (Some true)
     else if eq_str status "FAILED" then
       log Error (LogFailed attempt) ;; ret (Some false)
     else
       let progress := if eq_str status "PROCESSING" then "50%" else "0%" in
       log Info (LogStillProcessing attempt progress) ;;
       sleep_unless_last attempt max_attempts delay_seconds ;;
       ret None)
    (fun e =>
       log Error (LogErrorChecking attempt e) ;;
       sleep_unless_last attempt max_attempts delay_seconds ;;
       ret None).

(** [for attempt in attempts: ...] followed by the code after the loop. *)
Fixpoint poll_loop (project_id : string) (max_attempts delay_seconds : Z)
    (attempts : list nat) : M PollState bool :=
  match attempts with
  | [] => log Warning LogMaxAttempts ;; ret false
  | attempt :: rest =>
      r <- attempt_body project_id max_attempts delay_seconds attempt ;;
      match r with
      | Some b => ret b
      | None => poll_loop project_id max_attempts delay_seconds rest
      end
  end.

(** [range(max_attempts)]: empty when [max_attempts <= 0]. *)
Definition range (n : Z) : list nat := seq 0 (Z.to_nat n).

(** [SpeechlabClient.wait_for_completion]. *)
Definition wait_for_completion (project_id : string)
    (max_attempts delay_seconds : Z) : M PollState bool :=
  log Info LogWaiting ;;
  poll_loop project_id max_attempts delay_seconds (range max_attempts).

End Poller.

(** The status the poller derives from a payload:
    [project_data.get("job", {}).get("status", "UNKNOWN")]. *)
Definition derived_status (project_data : json) : result json :=
  match py_get project_data "job" (JObj []) with
  | Ok job => py_get job "status" (JStr "UNKNOWN")
  | Raise e => Raise e
  end.




(** Whatever is raised during attempt [i], by the status request or by the
    callback, is an instance of [Exception]. *)
Definition catchable_at (callback : option (nat -> json -> option pyexn))
    (remote : nat -> fetch_result) (i : nat) : Prop :=
  match remote i with
  | FetchErr e => is_Exception e = true
  | FetchOk d =>
      match callback with
      | Some f => match f i d with
                  | Some e => is_Exception e = true
                  | None => True
                  end
      | None => True
      end
  end.



(** Attempt [attempt] reaches a [time.sleep] that refuses the delay: it is
    not the last of the budget and the delay is negative. *)
Definition refused_sleep (max_attempts delay_seconds : Z) (attempt : nat)
  : bool :=
  (Z.of_nat attempt <? max_attempts - 1)%Z && (delay_seconds <? 0)%Z.




(** A remote that answers every status request with status [s]. *)
Definition always (s : string) : nat -> fetch_result :=
  fun _ => FetchOk (JObj [("job", JObj [("status", JStr s)])]).

(** A remote that answers the statuses of [l] in turn, then [last]. *)
Definition answers (l : list string) (last : string) : nat -> fetch_result :=
  fun k => FetchOk (JObj [("job", JObj [("status", JStr (nth k l last))])]).


(** A callback that raises [ValueError] whenever it is called. *)
Definition raising_callback : nat -> json -> option pyexn :=
  fun _ _ => Some (PyExn ValueError "callback failed").

End Client.

(* ===================================================================== *)
(** ** pathlib and os: paths, the file system, the environment *)
(* ===================================================================== *)

Module Os.

(** A [pathlib.PurePosixPath]: the root ([0] for a relative path, [1] for
    "/", [2] for "//") and the parts after it. *)
Record Path : Type := mkPath { anchor : nat; parts : list string }.

Definition slash : ascii := "/"%char.

(** [s.split("/")]. *)
Fixpoint split_slash (s : string) (cur : string) : list string :=
  match s with
  | EmptyString => [cur]
  | String c rest =>
      if Ascii.eqb c slash then cur :: split_slash rest ""
      else split_slash rest (cur ++ String c EmptyString)
  end.

Fixpoint leading_slashes (s : string) : nat :=
  match s with
  | String c rest => if Ascii.eqb c slash then S (leading_slashes rest) else 0
  | EmptyString => 0
  end.

(** [Path(s)]: [posixpath.splitroot] keeps a root of exactly two slashes,
    any other run of leading slashes is the root "/"; empty and "." parts
    are dropped. *)
Definition path_of_string (s : string) : Path :=
  let n := leading_slashes s in
  mkPath (match n with 0 => 0 | 2 => 2 | _ => 1 end)
         (filter (fun x => negb (String.eqb x "") && negb (String.eqb x "."))
                 (split_slash s "")).

Fixpoint join_parts (l : list string) : string :=
  match l with
  | [] => ""
  | [x] => x
  | x :: rest => x ++ "/" ++ join_parts rest
  end.

(** [str(p)]. *)
Definition path_str (p : Path) : string :=
  match anchor p, parts p with
  | 0, [] => "."
  | 0, l => join_parts l
  | 1, l => "/" ++ join_parts l
  | _, l => "//" ++ join_parts l
  end.

(** [a / b]: an anchored right operand replaces the left one. *)
Definition path_join (a b : Path) : Path :=
  match anchor b with
  | 0 => mkPath (anchor a) (parts a ++ parts b)
  | _ => b
  end.

(** [p.parent]: the path without its last part; a path without parts is its
    own parent. *)
Definition parent (p : Path) : Path := mkPath (anchor p) (removelast (parts p)).

(** [p.name]. *)
Definition name (p : Path) : string := last (parts p) "".

(** [s.rfind(".")]: the position of the last dot. *)
Fixpoint rfind_dot (s : string) (pos : nat) (found : option nat) : option nat :=
  match s with
  | EmptyString => found
  | String c rest =>
      rfind_dot rest (S pos) (if Ascii.eqb c "."%char then Some pos else found)
  end.

(** [p.suffix]: the text from the last dot of the name on, when that dot is
    neither the first nor the last character of the name. *)
Definition suffix (p : Path) : string :=
  let n := name p in
  match rfind_dot n 0 None with
  | Some i =>
      if ((0 <? i) && (i <? String.length n - 1))%nat
      then substring i (String.length n - i) n
      else ""
  | None => ""
  end.

Definition lower_char (c : ascii) : ascii :=
  let n := nat_of_ascii c in
  if ((65 <=? n) && (n <=? 90))%nat then ascii_of_nat (n + 32) else c.

(** [s.lower()]. *)
Fixpoint lower (s : string) : string :=
  match s with
  | EmptyString => EmptyString
  | String c rest => String (lower_char c) (lower rest)
  end.

(** [s.replace(" ", "_")]. *)
Fixpoint replace_spaces (s : string) : string :=
  match s with
  | EmptyString => EmptyString
  | String c rest =>
      String (if Ascii.eqb c " "%char then "_"%char else c) (replace_spaces rest)
  end.

(** [os.path.isabs(s)]. *)
Definition isabs (s : string) : bool :=
  match s with
  | String c _ => Ascii.eqb c slash
  | EmptyString => false
  end.

Fixpoint parts_eqb (l m : list string) : bool :=
  match l, m with
  | [], [] => true
  | x :: l', y :: m' => String.eqb x y && parts_eqb l' m'
  | _, _ => false
  end.

Definition path_eqb (p q : Path) : bool :=
  Nat.eqb (anchor p) (anchor q) && parts_eqb (parts p) (parts q).

(** An entry of the file system: a directory or a regular file, and whether
    the process may write to it ([os.access(p, os.W_OK)]). *)
Record node : Type := mkNode { is_dir : bool; writable : bool }.

(** The file system, as the process sees it: what each path names. *)
Definition FS : Type := Path -> option node.

Definition fs_exists (fs : FS) (p : Path) : bool :=
  match fs p with Some _ => true | None => false end.

Definition fs_is_file (fs : FS) (p : Path) : bool :=
  match fs p with Some n => negb (is_dir n) | None => false end.

Definition fs_is_dir (fs : FS) (p : Path) : bool :=
  match fs p with Some n => is_dir n | None => false end.

(** [os.access(p, os.W_OK)]: false for a path that does not exist. *)
Definition access_W_OK (fs : FS) (p : Path) : bool :=
  match fs p with Some n => writable n | None => false end.

Definition fs_add (fs : FS) (p : Path) (n : node) : FS :=
  fun q => if path_eqb q p then Some n else fs q.

(** [os.mkdir(p)]. *)
Definition os_mkdir (p : Path) (fs : FS) : result unit * FS :=
  match fs (parent p) with
  | None => (Raise (PyExn FileNotFoundError (path_str p)), fs)
  | Some d =>
      if negb (is_dir d) then (Raise (PyExn NotADirectoryError (path_str p)), fs)
      else match fs p with
           | Some _ => (Raise (PyExn FileExistsError (path_str p)), fs)
           | None =>
               if writable d then (Ok tt, fs_add fs p (mkNode true true))
               else (Raise (PyExn PermissionError (path_str p)), fs)
           end
  end.

Definition is_FileNotFoundError (e : pyexn) : bool :=
  match exn_cls e with FileNotFoundError => true | _ => false end.

(** [p.mkdir(parents=False, exist_ok=exist_ok)]. *)
Definition mkdir_single (p : Path) (exist_ok : bool) (fs : FS)
  : result unit * FS :=
  match os_mkdir p fs with
  | (Ok tt, fs') => (Ok tt, fs')
  | (Raise e, fs') =>
      if is_FileNotFoundError e then (Raise e, fs')
      else if exist_ok && fs_is_dir fs' p then (Ok tt, fs')
      else (Raise e, fs')
  end.

(** [p.mkdir(parents=True, exist_ok=exist_ok)], [p] given by its root and
    its parts in reverse: on [FileNotFoundError] the parent is made first,
    with [parents=True, exist_ok=True], unless [p] is its own parent. *)
Fixpoint mkdir_parents (a : nat) (rev_parts : list string) (exist_ok : bool)
    (fs : FS) : result unit * FS :=
  let p := mkPath a (rev rev_parts) in
  match os_mkdir p fs with
  | (Ok tt, fs') => (Ok tt, fs')
  | (Raise e, fs') =>
      if is_FileNotFoundError e then
        match rev_parts with
        | [] => (Raise e, fs')
        | _ :: up =>
            match mkdir_parents a up true fs' with
            | (Ok tt, fs1) => mkdir_single p exist_ok fs1
            | (Raise e1, fs1) => (Raise e1, fs1)
            end
        end
      else if exist_ok && fs_is_dir fs' p then (Ok tt, fs')
      else (Raise e, fs')
  end.

Definition mkdir (p : Path) (exist_ok : bool) : M FS unit :=
  mkdir_parents (anchor p) (rev (parts p)) exist_ok.

(** The path has no ".." part. *)
Definition no_dotdot (p : Path) : bool :=
  forallb (fun x => negb (String.eqb x "..")) (parts p).

(** How the operating system walks the parts of a path, [seen] holding the
    parts walked so far, the last one first.  A ".." part steps back out of
    the directory walked into last, which has to be a directory; at the root
    it stays at the root; at the start of a relative path, and after another
    "..", it is kept: the path leaves the current directory upwards. *)
Fixpoint os_walk (fs : FS) (a : nat) (seen todo : list string) : result Path :=
  match todo with
  | [] => Ok (mkPath a (rev seen))
  | x :: rest =>
      if negb (String.eqb x "..") then os_walk fs a (x :: seen) rest
      else
        match seen with
        | [] => os_walk fs a (if Nat.eqb a 0 then [x] else []) rest
        | y :: up =>
            if String.eqb y ".." then os_walk fs a (x :: seen) rest
            else
              match fs (mkPath a (rev seen)) with
              | None =>
                  Raise (PyExn FileNotFoundError (path_str (mkPath a (rev seen))))
              | Some d =>
                  if is_dir d then os_walk fs a up rest
                  else Raise (PyExn NotADirectoryError
                                (path_str (mkPath a (rev seen))))
              end
        end
  end.

(** The path the operating system gets to when it is handed [p]. *)
Definition os_resolve (fs : FS) (p : Path) : result Path :=
  os_walk fs (anchor p) [] (parts p).

(** [open(target, "wb")]: the place of the file that is created or
    truncated.  The directory it lies in has to exist; the place must not be
    a directory; an existing file has to be writable, and so has the
    directory when the file is new. *)
Definition open_wb (fs : FS) (target : Path) : result Path :=
  match os_resolve fs target with
  | Raise e => Raise e
  | Ok p =>
      match fs (parent p) with
      | None => Raise (PyExn FileNotFoundError (path_str target))
      | Some d =>
          if negb (is_dir d) then
            Raise (PyExn NotADirectoryError (path_str target))
          else if String.eqb (name p) ".." || String.eqb (name p) "" then
            Raise (PyExn IsADirectoryError (path_str target))
          else
            match fs p with
            | Some f =>
                if is_dir f then
                  Raise (PyExn IsADirectoryError (path_str target))
                else if writable f then Ok p
                else Raise (PyExn PermissionError (path_str target))
            | None =>
                if writable d then Ok p
                else Raise (PyExn PermissionError (path_str target))
            end
      end
  end.

(** What the process environment provides: [os.path.expanduser],
    [Path.home()] and the variable SPEECHLAB_MCP_BASE_PATH. *)
Record Env : Type := mkEnv {
  expanduser : string -> string;
  home : Path;
  base_path : option string
}.

(** Truth value of an optional str ([None] and the empty str are false). *)
Definition nonempty (o : option string) : bool :=
  match o with
  | Some s => negb (String.eqb s "")
  | None => false
  end.

(** A [datetime]. *)
Record datetime : Type := mkDatetime {
  year : nat; month : nat; day : nat; hour : nat; minute : nat; second : nat
}.

Definition digit (n : nat) : string :=
  String (ascii_of_nat (48 + n mod 10)) EmptyString.

Definition two_digits (n : nat) : string := digit (n / 10) ++ digit n.

Definition four_digits (n : nat) : string :=
  digit (n / 1000) ++ digit (n / 100) ++ digit (n / 10) ++ digit n.

(** [now.strftime('%Y%m%d_%H%M%S')], for a year of four digits. *)
Definition strftime_date_time (now : datetime) : string :=
  four_digits (year now) ++ two_digits (month now) ++ two_digits (day now)
  ++ "_" ++ two_digits (hour now) ++ two_digits (minute now)
  ++ two_digits (second now).

(** [now.strftime('%Y%m%d%H%M%S')]. *)
Definition strftime_compact (now : datetime) : string :=
  four_digits (year now) ++ two_digits (month now) ++ two_digits (day now)
  ++ two_digits (hour now) ++ two_digits (minute now)
  ++ two_digits (second now).

End Os.

Import Os.

(* ===================================================================== *)
(** ** utils.py *)
(* ===================================================================== *)

Module Utils.

(** [make_error(error_text)]: raises [SpeechlabMcpError(error_text)]. *)
Definition make_error {A} (error_text : string) : result A :=
  Raise (PyExn SpeechlabMcpError error_text).

(** [is_file_writeable(path)]. *)
Definition is_file_writeable (fs : FS) (path : Path) : bool :=
  if fs_exists fs path then access_W_OK fs path
  else access_W_OK fs (parent path).

(** The file name [make_output_file] builds:
    [f"{tool}_{id.replace(' ', '_')}_{now:%Y%m%d_%H%M%S}.{extension}"]
    with [id = text if full_id else text[:5]]. *)
Definition output_file_name (tool text extension : string) (full_id : bool)
    (now : datetime) : string :=
  let id := if full_id then text else substring 0 5 text in
  tool ++ "_" ++ replace_spaces id ++ "_" ++ strftime_date_time now
       ++ "." ++ extension.

(** [make_output_file(tool, text, output_path, extension, full_id)]. *)
Definition make_output_file (tool text : string) (output_path : Path)
    (extension : string) (full_id : bool) (now : datetime) : Path :=
  path_join output_path
    (path_of_string (output_file_name tool text extension full_id now)).

(** The path [make_output_path] settles on before it touches the file
    system. *)
Definition resolve_output_path (env : Env)
    (output_directory base_path : option string) : Path :=
  match output_directory with
  | None => path_join (home env) (path_of_string "Desktop")
  | Some dir =>
      if negb (isabs dir) && nonempty base_path then
        path_join
          (path_of_string (expanduser env (match base_path with
                                           | Some b => b
                                           | None => ""
                                           end)))
          (path_of_string dir)
      else path_of_string (expanduser env dir)
  end.

(** [make_output_path(output_directory, base_path)]. *)
Definition make_output_path (env : Env)
    (output_directory base_path : option string) : M FS Path :=
  let output_path := resolve_output_path env output_directory base_path in
  fun fs =>
    if negb (is_file_writeable fs output_path) then
      (make_error ("Directory (" ++ path_str output_path ++ ") is not writeable"),
       fs)
    else
      match mkdir output_path true fs with
      | (Ok tt, fs') => (Ok output_path, fs')
      | (Raise e, fs') => (Raise e, fs')
      end.

Definition media_extensions : list string :=
  [".mp3"; ".wav"; ".m4a"; ".aac"; ".ogg"; ".flac";
   ".mp4"; ".mov"; ".avi"; ".mkv"; ".webm"].

(** [check_media_file(path)]. *)
Definition check_media_file (path : Path) : bool :=
  existsb (String.eqb (lower (suffix path))) media_extensions.

(** [handle_input_file(file_path, audio_content_check)]. *)
Definition handle_input_file (env : Env) (fs : FS) (file_path : string)
    (audio_content_check : bool) : result Path :=
  if negb (isabs file_path) && negb (nonempty (base_path env)) then
    make_error
      "File path must be an absolute path if SPEECHLAB_MCP_BASE_PATH is not set"
  else
    let path := path_of_string file_path in
    if negb (fs_exists fs path) then
      make_error ("File (" ++ path_str path ++ ") does not exist")
    else if negb (fs_is_file fs path) then
      make_error ("Path (" ++ path_str path ++ ") is not a file")
    else if audio_content_check && negb (check_media_file path) then
      make_error ("File (" ++ path_str path ++ ") is not a recognized media file")
    else Ok path.

(** The extensions of the allow-list, without the dot. *)
Definition allowed_extensions : list string :=
  ["mp3"; "wav"; "m4a"; "aac"; "ogg"; "flac"; "mp4"; "mov"; "avi"; "mkv"; "webm"].

(** The acceptance rule without any condition on how the path was written:
    the file exists, is a regular file and, when the media check is on, has
    an extension of the allow-list, whatever its case. *)
Definition accepted_by_file_alone (fs : FS) (file_path : string)
    (audio_content_check : bool) : bool :=
  let path := path_of_string file_path in
  fs_exists fs path && fs_is_file fs path
  && (negb audio_content_check
      || existsb (fun ext => String.eqb (lower (suffix path)) ("." ++ ext))
                 allowed_extensions).

(** A file system that holds the given entries and nothing else. *)
Fixpoint fs_of (entries : list (string * node)) : FS :=
  match entries with
  | [] => fun _ => None
  | (s, n) :: rest => fs_add (fs_of rest) (path_of_string s) n
  end.

Definition dir_rw : node := mkNode true true.
Definition dir_ro : node := mkNode true false.
Definition file_rw : node := mkNode false true.

(** An environment whose home is /home/u: [expanduser] replaces a leading
    "~" that stands alone or before a slash, and changes nothing else. *)
Definition plain_env (base : option string) : Env :=
  mkEnv (fun s => match s with
                  | String "~"%char rest =>
                      if String.eqb rest "" || isabs rest
                      then "/home/u" ++ rest else s
                  | _ => s
                  end)
        (path_of_string "/home/u") base.

End Utils.

(* ===================================================================== *)
(** ** server.py and client.py: creating a project, downloading a result *)
(* ===================================================================== *)

Module Tools.

Import Utils.

(** The requests the tools send. *)
Inductive request : Type :=
| PostCreateProject (body : json)        (* POST {base}/projects/createProjectAndDub *)
| PostUpload (project_id : json) (file : Path)   (* POST {base}/projects/{id}/upload *)
| GetProject (project_id : string)       (* GET {base}/projects/{id}?expand=true *)
| GetDownloadUrl (project_id : string)   (* GET {base}/projects/{id}/download *)
| GetUrl (url : json).                   (* httpx.get(download_url) *)

Inductive effect : Type :=
| Http (r : request)
| WriteFile (target : Path).

(** The file system and what the tool did so far, oldest first. *)
Record State : Type := mkState { st_fs : FS; st_trace : list effect }.

Definition nl : string := String (ascii_of_nat 10) EmptyString.

Definition string_of_Z (z : Z) : string :=
  DecimalString.NilZero.string_of_int (Z.to_int z).

Section Tools.

(** What the remote answers to a request: the parsed body of the response,
    or the exception raised by the call, by [raise_for_status] or by
    [json()]. *)
Variable respond : request -> result json.

Variable env : Env.
Variable now : datetime.

(** One call through the HTTP client, up to [response.json()]. *)
Definition http (r : request) : M State json :=
  fun s => (respond r, mkState (st_fs s) (st_trace s ++ [Http r])).

Definition read_fs : M State FS := fun s => (Ok (st_fs s), s).

(** Runs a computation on the file system inside the tool's state. *)
Definition on_fs {A} (c : M FS A) : M State A :=
  fun s => match c (st_fs s) with
           | (r, fs') => (r, mkState fs' (st_trace s))
           end.

(** [with open(target, "wb") as f: f.write(...)]: the file is written at
    the place the operating system resolves [target] to; the trace keeps the
    path as the code wrote it. *)
Definition write_file (target : Path) : M State unit :=
  fun s =>
    match open_wb (st_fs s) target with
    | Ok p =>
        (Ok tt, mkState (fs_add (st_fs s) p (mkNode false true))
                        (st_trace s ++ [WriteFile target]))
    | Raise e => (Raise e, s)
    end.

(** ["es"] is sent as ["es_la"]; any other code is sent as it is. *)
Definition api_target_language (target_language : string) : string :=
  if String.eqb target_language "es" then "es_la" else target_language.

(** The JSON body of the create request; [prefix] is ["mcp_"] in server.py
    and ["client_"] in client.py. *)
Definition create_body (prefix name source_language target_language : string)
  : json :=
  JObj [("name", JStr name);
        ("sourceLanguage", JStr source_language);
        ("targetLanguage", JStr (api_target_language target_language));
        ("dubAccent", JStr (api_target_language target_language));
        ("voiceMatchingMode", JStr "source");
        ("unitType", JStr "whiteGlove");
        ("thirdPartyID", JStr (prefix ++ strftime_compact now))].

(** The two handlers every tool of server.py ends with:
    [except httpx.HTTPStatusError as e: make_error("HTTP error occurred: ...")]
    then [except Exception as e: make_error(context + str(e))]. *)
Definition tool_handlers {A} (context : string) (body : M State A) : M State A :=
  fun s =>
    match body s with
    | (Raise e, s') =>
        match exn_cls e with
        | HTTPStatusError =>
            (make_error
               ("HTTP error occurred: "
                ++ match exn_response e with
                   | Some (code, text) => string_of_Z code ++ " - " ++ text
                   | None => " - "
                   end), s')
        | _ =>
            if is_Exception e
            then (make_error (context ++ exn_msg e), s')
            else (Raise e, s')
        end
    | r => r
    end.

(** A field declared [str] of a pydantic model. *)
Definition str_field (v : json) : result string :=
  match v with
  | JStr s => Ok s
  | _ => Raise (PyExn ValidationError "Input should be a valid string")
  end.

(** A field declared [Optional[Dict[str, Any]]]. *)
Definition dict_field (v : json) : result json :=
  match v with
  | JObj _ | JNull => Ok v
  | _ => Raise (PyExn ValidationError "Input should be a valid dictionary")
  end.

(** [model.McpDubProject]. *)
Record McpDubProject : Type := mkDubProject {
  id : string;
  name : string;
  status : string;
  created_at : string;
  updated_at : string;
  source_language : string;
  target_language : string;
  source_file : option string;
  metadata : json
}.

Definition isoformat (d : datetime) : string :=
  four_digits (year d) ++ "-" ++ two_digits (month d) ++ "-"
  ++ two_digits (day d) ++ "T" ++ two_digits (hour d) ++ ":"
  ++ two_digits (minute d) ++ ":" ++ two_digits (second d).

Definition rbind {A B} (r : result A) (k : A -> result B) : result B :=
  match r with
  | Ok a => k a
  | Raise e => Raise e
  end.

(** The [McpDubProject(...)] call of [create_project_and_dub]: the arguments
    are read from the response in the order they are written, then
    validated. *)
Definition dub_project_of_response (project_data : json)
    (source_file : option string) : result McpDubProject :=
  rbind (py_item project_data "id") (fun v_id =>
  rbind (py_item project_data "name") (fun v_name =>
  rbind (py_get project_data "status" (JStr "created")) (fun v_status =>
  rbind (py_get project_data "createdAt" (JStr (isoformat now))) (fun v_created =>
  rbind (py_get project_data "updatedAt" (JStr (isoformat now))) (fun v_updated =>
  rbind (py_item project_data "sourceLanguage") (fun v_source =>
  rbind (py_item project_data "targetLanguage") (fun v_target =>
  rbind (py_get project_data "metadata" (JObj [])) (fun v_meta =>
  rbind (str_field v_id) (fun id =>
  rbind (str_field v_name) (fun name =>
  rbind (str_field v_status) (fun status =>
  rbind (str_field v_created) (fun created =>
  rbind (str_field v_updated) (fun updated =>
  rbind (str_field v_source) (fun source =>
  rbind (str_field v_target) (fun target =>
  rbind (dict_field v_meta) (fun meta =>
  Ok (mkDubProject id name status created updated source target
        (if nonempty source_file then source_file else None) meta)
  )))))))))))))))).

Definition created_text (p : McpDubProject) : string :=
  "Project created successfully:" ++ nl
  ++ "ID: " ++ id p ++ nl
  ++ "Name: " ++ name p ++ nl
  ++ "Source Language: " ++ source_language p ++ nl
  ++ "Target Language: " ++ target_language p ++ nl
  ++ "Status: " ++ status p.

(** server.py, [create_project_and_dub]; the result is the text of the
    [TextContent]. *)
Definition create_project_and_dub (name source_language target_language : string)
    (source_file : option string) : M State string :=
  tool_handlers "Error creating project: "
    (project_data <- http (PostCreateProject
                             (create_body "mcp_" name source_language
                                          target_language)) ;;
     when (nonempty source_file)
       (fs <- read_fs ;;
        file_path <- lift (handle_input_file env fs
                             (match source_file with Some f => f | None => "" end)
                             true) ;;
        project_id <- lift (py_item project_data "id") ;;
        _ <- http (PostUpload project_id file_path) ;;
        ret tt) ;;
     project <- lift (dub_project_of_response project_data source_file) ;;
     ret (created_text project)).

(** client.py, [SpeechlabClient.create_project]: the response is returned as
    it is; an [HTTPStatusError] is logged and raised again. *)
Definition create_project (name source_language target_language : string)
  : M State json :=
  try_except_HTTPStatusError
    (http (PostCreateProject
             (create_body "client_" name source_language target_language)))
    (fun e => raise e).

(** server.py, [upload_media]. *)
Definition upload_media (project_id file_path : string) : M State string :=
  tool_handlers "Error uploading media: "
    (fs <- read_fs ;;
     file_path_obj <- lift (handle_input_file env fs file_path true) ;;
     _ <- http (PostUpload (JStr project_id) file_path_obj) ;;
     ret ("File uploaded successfully to project " ++ project_id ++ "." ++ nl
          ++ "File: " ++ Os.name file_path_obj)).

(** The innermost loop of the search: [for media in medias], stopping at the
    first media whose operationType is "OUTPUT" and whose presignedURL is
    true; the result is that presignedURL. *)
Fixpoint search_medias (medias : list json) : result (option json) :=
  match medias with
  | [] => Ok None
  | media :: rest =>
      rbind (py_get media "operationType" JNull) (fun op =>
        if eq_str op "OUTPUT" then
          rbind (py_get media "presignedURL" JNull) (fun url =>
            if truthy url then Ok (Some url) else search_medias rest)
        else search_medias rest)
  end.

(** [for dub in dubs]: the medias of each dub in turn, until a URL is found. *)
Fixpoint search_dubs (dubs : list json) : result (option json) :=
  match dubs with
  | [] => Ok None
  | dub :: rest =>
      rbind (py_get dub "medias" (JArr [])) (fun medias =>
      rbind (py_iter medias) (fun items =>
      rbind (search_medias items) (fun found =>
        match found with
        | Some url => Ok (Some url)
        | None => search_dubs rest
        end)))
  end.

(** [for translation in translations]; [skip_empty] is the
    [if not dubs: continue] that server.py has and client.py has not. *)
Fixpoint search_translations (skip_empty : bool) (translations : list json)
  : result (option json) :=
  match translations with
  | [] => Ok None
  | translation :: rest =>
      rbind (py_get translation "dub" (JArr [])) (fun dubs =>
        if skip_empty && negb (truthy dubs) then
          search_translations skip_empty rest
        else
          rbind (py_iter dubs) (fun items =>
          rbind (search_dubs items) (fun found =>
            match found with
            | Some url => Ok (Some url)
            | None => search_translations skip_empty rest
            end)))
  end.

(** The fallback both tools share: ask the download endpoint, and fail with
    [no_url] when the answer has no "url" key. *)
Definition fallback_url (project_id : string) (no_url : pyexn) : M State json :=
  url_data <- http (GetDownloadUrl project_id) ;;
  has_url <- lift (py_contains "url" url_data) ;;
  if negb has_url then raise no_url
  else lift (py_item url_data "url").

Definition no_url_message : string :=
  "No download URL available. The dubbing may not be complete.".

(** server.py, [download_dubbing_result], up to the URL the file is fetched
    from. *)
Definition resolve_url_server (project_id : string) : M State json :=
  project_data <- http (GetProject project_id) ;;
  translations <- lift (py_get project_data "translations" (JArr [])) ;;
  (if negb (truthy translations)
   then lift (make_error "No translations found in the project.")
   else ret tt) ;;
  items <- lift (py_iter translations) ;;
  found <- lift (search_translations true items) ;;
  match found with
  | Some url => ret url
  | None => fallback_url project_id (PyExn SpeechlabMcpError no_url_message)
  end.

(** client.py, [download_result], up to the URL the file is fetched from. *)
Definition resolve_url_client (project_id : string) : M State json :=
  project_data <- http (GetProject project_id) ;;
  translations <- lift (py_get project_data "translations" (JArr [])) ;;
  items <- lift (py_iter translations) ;;
  found <- lift (search_translations false items) ;;
  match found with
  | Some url => ret url
  | None => fallback_url project_id (PyExn ValueError no_url_message)
  end.

(** server.py, [download_dubbing_result]. *)
Definition download_dubbing_result (project_id : string)
    (output_directory : option string) : M State string :=
  tool_handlers "Error downloading dubbing result: "
    (download_url <- resolve_url_server project_id ;;
     _ <- http (GetUrl download_url) ;;
     output_path <- on_fs (make_output_path env output_directory (base_path env)) ;;
     let output_file_name :=
       make_output_file "dub" ("project_" ++ project_id) output_path "mp4"
                        false now in
     write_file (path_join output_path output_file_name) ;;
     ret ("Dubbing result downloaded successfully." ++ nl ++ "File saved at: "
          ++ path_str (path_join output_path output_file_name))).

(** client.py, [SpeechlabClient.download_result]. *)
Definition download_result (project_id : string)
    (output_directory : option string) : M State string :=
  try_except_HTTPStatusError
    (download_url <- resolve_url_client project_id ;;
     _ <- http (GetUrl download_url) ;;
     let output_path :=
       path_of_string
         (expanduser env (if nonempty output_directory
                          then match output_directory with
                               | Some d => d
                               | None => ""
                               end
                          else "~/Desktop")) in
     on_fs (mkdir output_path true) ;;
     let output_file_path :=
       path_join output_path
         (path_of_string ("dub_project_" ++ project_id ++ "_"
                          ++ strftime_date_time now ++ ".mp4")) in
     write_file output_file_path ;;
     ret (path_str output_file_path))
    (fun e => raise e).

End Tools.

(** The requests of a trace that fetch a file. *)
Definition is_download (e : effect) : bool :=
  match e with Http (GetUrl _) => true | _ => false end.

Definition is_fallback (e : effect) : bool :=
  match e with Http (GetDownloadUrl _) => true | _ => false end.

(** A media entry, a dub entry and a translation entry of an expanded
    project payload. *)
Definition media_entry (operation_type : string) (presigned : json) : json :=
  JObj [("operationType", JStr operation_type); ("presignedURL", presigned)].

Definition dub_entry (medias : list json) : json :=
  JObj [("medias", JArr medias)].

Definition translation_entry (dubs : list json) : json :=
  JObj [("dub", JArr dubs)].

Definition project_payload (translations : list json) : json :=
  JObj [("id", JStr "p1"); ("translations", JArr translations)].

(** The medias of a payload made of such entries, translation by
    translation, dub by dub, in the order they are written. *)
Definition medias_of_dub (dub : json) : list json :=
  match dub with
  | JObj kvs => match assoc "medias" kvs with
                | Some (JArr l) => l
                | _ => []
                end
  | _ => []
  end.

Definition dubs_of_translation (translation : json) : list json :=
  match translation with
  | JObj kvs => match assoc "dub" kvs with
                | Some (JArr l) => l
                | _ => []
                end
  | _ => []
  end.

Definition all_medias (translations : list json) : list json :=
  flat_map (fun t => flat_map medias_of_dub (dubs_of_translation t)) translations.

(** A media is an output with a presigned URL. *)
Definition is_output_with_url (media : json) : bool :=
  match media with
  | JObj kvs =>
      match assoc "operationType" kvs with
      | Some op =>
          eq_str op "OUTPUT"
          && match assoc "presignedURL" kvs with
             | Some url => truthy url
             | None => false
             end
      | None => false
      end
  | _ => false
  end.

Definition presigned_url (media : json) : json :=
  match media with
  | JObj kvs => match assoc "presignedURL" kvs with
                | Some url => url
                | None => JNull
                end
  | _ => JNull
  end.

(** The payload has the shape of the API: every translation is a dict whose
    "dub", when present, is a list of dicts whose "medias", when present, is
    a list of dicts. *)
Definition is_dict (v : json) : bool :=
  match v with JObj _ => true | _ => false end.

Definition dub_well_shaped (dub : json) : bool :=
  match dub with
  | JObj kvs => match assoc "medias" kvs with
                | Some (JArr l) => forallb is_dict l
                | Some _ => false
                | None => true
                end
  | _ => false
  end.

Definition translation_well_shaped (translation : json) : bool :=
  match translation with
  | JObj kvs => match assoc "dub" kvs with
                | Some (JArr l) => forallb dub_well_shaped l
                | Some _ => false
                | None => true
                end
  | _ => false
  end.

Definition well_shaped (translations : list json) : bool :=
  forallb translation_well_shaped translations.

(** A remote that accepts every create request and answers with the project
    as the API stored it, under the target language it was sent. *)
Definition echo_remote (r : request) : result json :=
  match r with
  | PostCreateProject body =>
      rbind (py_item body "name") (fun n =>
      rbind (py_item body "sourceLanguage") (fun src =>
      rbind (py_item body "targetLanguage") (fun tgt =>
        Ok (JObj [("id", JStr "p1"); ("name", n);
                  ("sourceLanguage", src); ("targetLanguage", tgt)]))))
  | _ => Ok JNull
  end.

Definition noon : datetime := mkDatetime 2024 3 7 12 0 0.

Definition empty_state : State := mkState (fs_of [("/", dir_rw)]) [].

(** A project with two translations; only the dub of the second holds an
    OUTPUT media with a presigned URL. *)
Definition two_translations : json :=
  project_payload
    [translation_entry [dub_entry [media_entry "INPUT" (JStr "https://cdn/in.mp4");
                                   media_entry "OUTPUT" JNull]];
     translation_entry [dub_entry [media_entry "INPUT" (JStr "https://cdn/in.mp4");
                                   media_entry "OUTPUT" (JStr "https://cdn/out.mp4")]]].

(** A remote that answers the project request with [project_data] and the
    download endpoint with [url_data]. *)
Definition project_remote (project_data url_data : json) (r : request)
  : result json :=
  match r with
  | GetProject _ => Ok project_data
  | GetDownloadUrl _ => Ok url_data
  | _ => Ok JNull
  end.

Definition desktop_state : State :=
  mkState (fs_of [("/", dir_rw); ("/home", dir_rw); ("/home/u", dir_rw);
                  ("/home/u/Desktop", dir_rw)]) [].

End Tools.

(* ===================================================================== *)
(** ** server.py and client.py: status, listing, sharing link, upload *)
(* ===================================================================== *)

Module Server.

Import Utils Tools.

(** The requests of [get_projects] and [generate_sharing_link].  These tools
    send their one request first and nothing else, so their model takes the
    answer and leaves the trace as it is. *)
Inductive call : Type :=
| GetProjects (limit offset : Z)        (* GET {base}/projects?limit=&offset=&expand=true *)
| PostSharingLink (project_id : string). (* POST {base}/collaborations/generateSharingLink *)

(** [v[0]]. *)
Definition py_first (v : json) : result json :=
  match v with
  | JArr (x :: _) => Ok x
  | JArr [] => Raise (PyExn OtherException "list index out of range")
  | JStr (String c _) => Ok (JStr (String c EmptyString))
  | JStr EmptyString => Raise (PyExn OtherException "string index out of range")
  | JObj _ => Raise (PyExn KeyError "0")
  | _ => Raise (PyExn TypeError "object is not subscriptable")
  end.

(** The keys of a dict, each once. *)
Fixpoint distinct_keys (kvs : list (string * json)) (seen : list string)
  : list string :=
  match kvs with
  | [] => []
  | (k, _) :: rest =>
      if existsb (String.eqb k) seen then distinct_keys rest seen
      else k :: distinct_keys rest (k :: seen)
  end.

(** [len(v)]. *)
Definition py_len (v : json) : result nat :=
  match v with
  | JArr l => Ok (length l)
  | JStr s => Ok (String.length s)
  | JObj kvs => Ok (length (distinct_keys kvs []))
  | _ => Raise (PyExn TypeError "object has no len()")
  end.

(** [next((m for m in medias if m.get("operationType") == "OUTPUT"), None)]. *)
Fixpoint next_output (medias : list json) : result (option json) :=
  match medias with
  | [] => Ok None
  | m :: rest =>
      rbind (py_get m "operationType" JNull) (fun op =>
        if eq_str op "OUTPUT" then Ok (Some m) else next_output rest)
  end.

(** [sep.join(l)]. *)
Fixpoint join (sep : string) (l : list string) : string :=
  match l with
  | [] => ""
  | [x] => x
  | x :: rest => x ++ sep ++ join sep rest
  end.

(** The values [check_dubbing_status] puts into the text it returns:
    "Dubbing Status for Project {project_id}:", "Status: {status}",
    "Progress: {progress}", "Dub Process: {dub_status}", then, when the first
    dub has medias, "Media Files: {media_count} files available" and, when
    [output_available], "Output media available for download". *)
Record StatusReport : Type := mkReport {
  report_project_id : string;
  report_status : json;
  report_progress : string;
  report_dub_status : json;
  report_media_count : option nat;
  report_output_available : bool
}.

(** The part of [check_dubbing_status] that reads the first dub of the first
    translation: the dub status, the number of medias, and whether the first
    OUTPUT media has a presigned URL. *)
Definition dub_details (translations : json) : result (json * option nat * bool) :=
  if truthy translations then
    rbind (py_first translations) (fun first_translation =>
    rbind (py_get first_translation "dub" (JArr [])) (fun dubs =>
      if truthy dubs then
        rbind (py_first dubs) (fun first_dub =>
        rbind (py_get first_dub "mergeStatus" (JStr "Unknown")) (fun dub_status =>
        rbind (py_get first_dub "medias" (JArr [])) (fun medias =>
          if truthy medias then
            rbind (py_len medias) (fun media_count =>
            rbind (py_iter medias) (fun items =>
            rbind (next_output items) (fun output_media =>
              match output_media with
              | Some m =>
                  if truthy m then
                    rbind (py_get m "presignedURL" JNull) (fun url =>
                      Ok (dub_status, Some media_count, truthy url))
                  else Ok (dub_status, Some media_count, false)
              | None => Ok (dub_status, Some media_count, false)
              end)))
          else Ok (dub_status, None, false))))
      else Ok (JStr "Not started", None, false)))
  else Ok (JStr "Not started", None, false).

(** A field of [model.McpProject], as [get_projects] fills it. *)
Definition project_entry (project_data : json) : result string :=
  rbind (py_item project_data "id") (fun v_id =>
  rbind (py_get project_data "job" (JObj [])) (fun job_n =>
  rbind (py_get job_n "name" (JStr "Unnamed Project")) (fun v_name =>
  rbind (py_get project_data "job" (JObj [])) (fun job_s =>
  rbind (py_get job_s "status" (JStr "unknown")) (fun v_status =>
  rbind (py_get project_data "createdAt" (JStr "unknown")) (fun v_created =>
  rbind (py_get project_data "updatedAt" (JStr "unknown")) (fun v_updated =>
  rbind (py_get project_data "metadata" (JObj [])) (fun v_meta =>
  rbind (str_field v_id) (fun id =>
  rbind (str_field v_name) (fun name =>
  rbind (str_field v_status) (fun status =>
  rbind (str_field v_created) (fun created =>
  rbind (str_field v_updated) (fun _ =>
  rbind (dict_field v_meta) (fun _ =>
  Ok ("ID: " ++ id ++ nl ++ "Name: " ++ name ++ nl
      ++ "Status: " ++ status ++ nl ++ "Created: " ++ created)
  )))))))))))))).

(** The loop of [get_projects] that fills [projects_list]. *)
Fixpoint format_projects (results : list json) : result (list string) :=
  match results with
  | [] => Ok []
  | project_data :: rest =>
      rbind (project_entry project_data) (fun entry =>
      rbind (format_projects rest) (fun entries => Ok (entry :: entries)))
  end.

Section Server.

Variable respond : request -> result json.
Variable answer : call -> result json.

(** server.py, [check_dubbing_status]. *)
Definition check_dubbing_status (project_id : string) : M State StatusReport :=
  tool_handlers "Error checking dubbing status: "
    (project_data <- http respond (GetProject project_id) ;;
     job_data <- lift (py_get project_data "job" (JObj [])) ;;
     status <- lift (py_get job_data "status" (JStr "UNKNOWN")) ;;
     let progress :=
       if eq_str status "PROCESSING" then "50%"
       else if eq_str status "COMPLETE" then "100%"
       else "0%" in
     translations <- lift (py_get project_data "translations" (JArr [])) ;;
     details <- lift (dub_details translations) ;;
     ret (mkReport project_id status progress (fst (fst details))
            (snd (fst details)) (snd details))).

(** server.py, [get_projects]; the [len] is the one of the log line that
    precedes the listing. *)
Definition get_projects (limit offset : Z) : M State string :=
  tool_handlers "Error getting projects: "
    (projects_data <- lift (answer (GetProjects limit offset)) ;;
     _ <- lift (rbind (py_get projects_data "results" (JArr [])) py_len) ;;
     results <- lift (py_get projects_data "results" (JArr [])) ;;
     if negb (truthy results) then ret "No projects found."
     else
       items <- lift (py_iter results) ;;
       projects_list <- lift (format_projects items) ;;
       ret ("Retrieved " ++ string_of_Z (Z.of_nat (length projects_list))
            ++ " projects:" ++ nl ++ nl ++ join (nl ++ nl) projects_list)).

(** The link both [generate_sharing_link] take from the answer; [no_link] is
    what is raised when the answer has no "link". *)
Definition sharing_link_of (link_data : json) (no_link : pyexn) : result json :=
  rbind (py_contains "link" link_data) (fun has_link =>
    if negb has_link then Raise no_link
    else py_item link_data "link").

Definition no_link_message : string :=
  "No sharing link was returned in the response.".

(** server.py, [generate_sharing_link]; the result is the link the returned
    text shows after "Link: ". *)
Definition generate_sharing_link (project_id : string) : M State json :=
  tool_handlers "Error generating sharing link: "
    (link_data <- lift (answer (PostSharingLink project_id)) ;;
     lift (sharing_link_of link_data (PyExn SpeechlabMcpError no_link_message))).

(** client.py, [SpeechlabClient.generate_sharing_link]. *)
Definition client_generate_sharing_link (project_id : string) : M State json :=
  try_except_HTTPStatusError
    (link_data <- lift (answer (PostSharingLink project_id)) ;;
     lift (sharing_link_of link_data (PyExn ValueError no_link_message)))
    (fun e => raise e).

(** [open(path, "rb")] on an existing path: a directory cannot be opened. *)
Definition open_rb (path : Path) : M State unit :=
  fun s => if fs_is_dir (st_fs s) path
           then (Raise (PyExn OtherException "Is a directory"), s)
           else (Ok tt, s).

(** client.py, [SpeechlabClient.upload_media]. *)
Definition client_upload_media (project_id file_path : string) : M State json :=
  try_except_HTTPStatusError
    (fs <- read_fs ;;
     let file_path_obj := path_of_string file_path in
     (if negb (fs_exists fs file_path_obj)
      then raise (PyExn ValueError ("File does not exist: " ++ file_path))
      else ret tt) ;;
     open_rb file_path_obj ;;
     http respond (PostUpload (JStr project_id) file_path_obj))
    (fun e => raise e).

End Server.

(** A remote that lists the given projects. *)
Definition listing (results : json) (c : call) : result json :=
  match c with
  | GetProjects _ _ => Ok (JObj [("results", results)])
  | PostSharingLink _ => Ok (JObj [("link", JStr "https://share/p1")])
  end.

Definition listed_project (id name status : string) : json :=
  JObj [("id", JStr id);
        ("job", JObj [("name", JStr name); ("status", JStr status)]);
        ("createdAt", JStr "2024-03-07T12:00:00Z")].

(** A project whose first dub holds its result. *)
Definition ready_project : json :=
  JObj [("id", JStr "p1");
        ("job", JObj [("status", JStr "COMPLETE")]);
        ("translations",
         JArr [translation_entry
                 [JObj [("mergeStatus", JStr "COMPLETE");
                        ("medias",
                         JArr [media_entry "INPUT" (JStr "https://cdn/in.mp4");
                               media_entry "OUTPUT" (JStr "https://cdn/out.mp4")])]]])].

End Server.

(* ===================================================================== *)
(** ** Reading the trace of a polling run *)
(* ===================================================================== *)

Module PollTrace.

Import Client.

Definition is_sleep (e : event) : bool :=
  match e with ESleep _ => true | _ => false end.

(** How many times the run slept. *)
Definition count_sleeps (t : list event) : nat := length (filter is_sleep t).

(** The seconds slept in all: one entry per call of [time.sleep] that was
    carried out (a call refused with [ValueError] sleeps nothing and leaves
    no entry). *)
Fixpoint sleeps (t : list event) : list Z :=
  match t with
  | [] => []
  | ESleep z :: rest => z :: sleeps rest
  | _ :: rest => sleeps rest
  end.

(** The calls of the callback, with their arguments, in order. *)
Fixpoint callback_calls (t : list event) : list (nat * json) :=
  match t with
  | [] => []
  | ECallback i d :: rest => (i, d) :: callback_calls rest
  | _ :: rest => callback_calls rest
  end.

(** A callback that returns normally whatever it is given. *)
Definition quiet_callback : nat -> json -> option pyexn := fun _ _ => None.


End PollTrace.

(* ===================================================================== *)
(** ** Characters of a str *)
(* ===================================================================== *)

Module Text.

(** [c not in s]. *)
Fixpoint no_char (c : ascii) (s : string) : bool :=
  match s with
  | EmptyString => true
  | String x rest => negb (Ascii.eqb x c) && no_char c rest
  end.

End Text.

(* ===================================================================== *)
(** ** The completion poller: runs on concrete status sequences *)
(* ===================================================================== *)

Import Client.

(** N = 3 and the statuses PROCESSING, PROCESSING, COMPLETE: three requests,
  two sleeps, success. *)
Example poll_three_then_complete :
wait_for_completion (answers ["PROCESSING"; "PROCESSING"] "COMPLETE") None
  "p1" 3 0 init
= (Ok true,
   mkPoll 3
     [ELog Info LogWaiting;
      ELog Info LogGetting; EGetProject "p1"; ELog Info LogRetrieved;
      ELog Info (LogPoll 0 (JStr "PROCESSING"));
      ELog Info (LogStillProcessing 0 "50%");
      ELog Info LogSleeping; ESleep 0;
      ELog Info LogGetting; EGetProject "p1"; ELog Info LogRetrieved;
      ELog Info (LogPoll 1 (JStr "PROCESSING"));
      ELog Info (LogStillProcessing 1 "50%");
      ELog Info LogSleeping; ESleep 0;
      ELog Info LogGetting; EGetProject "p1"; ELog Info LogRetrieved;
      ELog Info (LogPoll 2 (JStr "COMPLETE"));
      ELog Info (LogCompleted 2)]).
Proof. reflexivity. Qed.

(** N = 2 and the statuses PROCESSING, PROCESSING: two requests, one sleep,
  [False]. *)
Example poll_two_then_timeout :
wait_for_completion (always "PROCESSING") None "p1" 2 15 init
= (Ok false,
   mkPoll 2
     [ELog Info LogWaiting;
      ELog Info LogGetting; EGetProject "p1"; ELog Info LogRetrieved;
      ELog Info (LogPoll 0 (JStr "PROCESSING"));
      ELog Info (LogStillProcessing 0 "50%");
      ELog Info LogSleeping; ESleep 15;
      ELog Info LogGetting; EGetProject "p1"; ELog Info LogRetrieved;
      ELog Info (LogPoll 1 (JStr "PROCESSING"));
      ELog Info (LogStillProcessing 1 "50%");
      ELog Warning LogMaxAttempts]).
Proof. reflexivity. Qed.

(** A non-positive budget sends no request at all. *)
Example poll_no_budget :
wait_for_completion (always "COMPLETE") None "p1" (-4) 15 init
= (Ok false, mkPoll 0 [ELog Info LogWaiting; ELog Warning LogMaxAttempts]).
Proof. reflexivity. Qed.

(** A negative delay: the first attempt that does not return reaches
    [time.sleep(-1)], which raises [ValueError] inside the [try]; the
    handler logs it and reaches the same [time.sleep(-1)], whose
    [ValueError] leaves the call.  One request was sent, nothing slept. *)
Example poll_negative_delay :
wait_for_completion (answers ["PROCESSING"] "COMPLETE") None "p1" 2 (-1) init
= (Raise sleep_error,
   mkPoll 1
     [ELog Info LogWaiting;
      ELog Info LogGetting; EGetProject "p1"; ELog Info LogRetrieved;
      ELog Info (LogPoll 0 (JStr "PROCESSING"));
      ELog Info (LogStillProcessing 0 "50%");
      ELog Info LogSleeping;
      ELog Error (LogErrorChecking 0 sleep_error);
      ELog Info LogSleeping]).
Proof. reflexivity. Qed.

(** With a negative delay and a budget of one attempt nothing is slept, and
    nothing raised. *)
Example poll_negative_delay_single_attempt :
wait_for_completion (always "PROCESSING") None "p1" 1 (-1) init
= (Ok false,
   mkPoll 1
     [ELog Info LogWaiting;
      ELog Info LogGetting; EGetProject "p1"; ELog Info LogRetrieved;
      ELog Info (LogPoll 0 (JStr "PROCESSING"));
      ELog Info (LogStillProcessing 0 "50%");
      ELog Warning LogMaxAttempts]).
Proof. reflexivity. Qed.

(* ===================================================================== *)
(** ** The completion poller: one attempt *)
(* ===================================================================== *)

Import PollTrace.

Lemma sleeps_app (t u : list event) : sleeps (t ++ u) = (sleeps t ++ sleeps u)%list.
Proof.
  induction t as [| e t IH]; simpl; [reflexivity |].
  destruct e; simpl; rewrite ?IH; reflexivity.
Qed.

Lemma callback_calls_app (t u : list event) :
  callback_calls (t ++ u) = (callback_calls t ++ callback_calls u)%list.
Proof.
  induction t as [| e t IH]; simpl; [reflexivity |].
  destruct e; simpl; rewrite ?IH; reflexivity.
Qed.



Section PollerFacts.

Variable remote : nat -> fetch_result.
Variable callback : option (nat -> json -> option pyexn).
Variable project_id : string.
Variables max_attempts delay_seconds : Z.

Local Abbreviation body := (attempt_body remote callback project_id max_attempts delay_seconds).
Local Abbreviation loop := (poll_loop remote callback project_id max_attempts delay_seconds).



Lemma derived_status_raises_Exception d e :
  derived_status d = Raise e -> is_Exception e = true.
Proof.
  unfold derived_status, py_get.
  destruct d; try (intros [= <-]; reflexivity).
  destruct (assoc "job" kvs) as [j|]; simpl.
  - destruct j; try (intros [= <-]; reflexivity).
    destruct (assoc "status" kvs0); discriminate.
  - discriminate.
Qed.















End PollerFacts.
(* ===================================================================== *)
(** ** The completion poller: requests, sleeps and callback calls of a run *)
(* ===================================================================== *)

(** Closes a leaf of the case analysis of one attempt: the events added are
    read off the final state, then each part of the summary is checked on
    them. *)
Ltac attempt_effect_done :=
  eexists; eexists;
  split; [rewrite <- ?app_assoc; reflexivity |];
  simpl;
  split; [reflexivity |];
  split; [first [ intros c [<- | []]; simpl; repeat split; assumption
               | intros c [] ] |];
  split; [simpl; lia |];
  split; [first [ intros e0 He0; discriminate He0
                | intros e0 He0; injection He0 as <-; left;
                  split; [assumption | intros Hcatch; congruence]
                | intros e0 He0; injection He0 as <-; right;
                  split; reflexivity ] |];
  first [ reflexivity | intros He0; discriminate He0 ].

Section PollerRuns.

Variable remote : nat -> fetch_result.
Variable callback : option (nat -> json -> option pyexn).
Variable project_id : string.
Variables max_attempts delay_seconds : Z.

(** What one attempt adds to the state, whatever the remote and the callback
    do: one request; a sleep of [delay_seconds] exactly when the attempt
    neither returns nor raises and is not the last of the budget; a call of
    the callback only with the attempt index and the payload just fetched,
    from which a status could be derived; and an exception only when it is
    no instance of [Exception], or when it is the [ValueError] of a
    [time.sleep] that refused the delay. *)
Lemma attempt_body_effect (i : nat) (s : PollState) :
  fetches s = i ->
  exists r t,
    attempt_body remote callback project_id max_attempts delay_seconds i s
    = (r, mkPoll (S i) (trace s ++ t))
    /\ sleeps t = match r with
                  | Ok None => if (Z.of_nat i <? max_attempts - 1)%Z
                               then [delay_seconds] else []
                  | _ => []
                  end
    /\ (forall c, In c (callback_calls t) ->
                  fst c = i /\ remote i = FetchOk (snd c)
                  /\ exists st, derived_status (snd c) = Ok st)
    /\ (length (callback_calls t) <= 1)
    /\ (forall e, r = Raise e ->
                  (is_Exception e = false /\ ~ catchable_at callback remote i)
                  \/ (e = sleep_error
                      /\ refused_sleep max_attempts delay_seconds i = true))
    /\ (r = Ok None -> refused_sleep max_attempts delay_seconds i = false).
Proof.
  intros Hs. unfold catchable_at, refused_sleep.
  unfold attempt_body, try_except_Exception, get_project_status,
    try_except_HTTPStatusError, http_get_project, call_callback,
    sleep_unless_last, when, time_sleep, log, emit, bind, ret, raise, lift.
  simpl. rewrite Hs.
  destruct (remote i) as [d | e] eqn:Hr; simpl.
  - destruct (py_get d "job" (JObj [])) as [job | e1] eqn:Hjob; simpl.
    + destruct (py_get job "status" (JStr "UNKNOWN")) as [st | e2] eqn:Hst; simpl.
      * assert (Hder : exists st0, derived_status d = Ok st0).
        { exists st. unfold derived_status. rewrite Hjob. exact Hst. }
        destruct callback as [f |]; simpl.
        { destruct (f i d) as [e3 |] eqn:Hf; simpl.
          - destruct (is_Exception e3) eqn:Hex; simpl;
              [destruct (Z.of_nat i <? max_attempts - 1)%Z; simpl;
               [destruct (delay_seconds <? 0)%Z; simpl |] |];
              attempt_effect_done.
          - destruct (eq_str st "COMPLETE"); simpl;
              [| destruct (eq_str st "FAILED"); simpl;
                 [| destruct (Z.of_nat i <? max_attempts - 1)%Z; simpl;
                    [destruct (delay_seconds <? 0)%Z; simpl |]]];
              attempt_effect_done. }
        destruct (eq_str st "COMPLETE"); simpl;
          [| destruct (eq_str st "FAILED"); simpl;
             [| destruct (Z.of_nat i <? max_attempts - 1)%Z; simpl;
                [destruct (delay_seconds <? 0)%Z; simpl |]]];
          attempt_effect_done.
      * assert (Hex : is_Exception e2 = true).
        { apply (derived_status_raises_Exception d). unfold derived_status.
          rewrite Hjob. exact Hst. }
        rewrite Hex.
        destruct (Z.of_nat i <? max_attempts - 1)%Z; simpl;
          [destruct (delay_seconds <? 0)%Z; simpl |];
          attempt_effect_done.
    + assert (Hex : is_Exception e1 = true).
      { apply (derived_status_raises_Exception d). unfold derived_status.
        rewrite Hjob. reflexivity. }
      rewrite Hex.
      destruct (Z.of_nat i <? max_attempts - 1)%Z; simpl;
        [destruct (delay_seconds <? 0)%Z; simpl |];
        attempt_effect_done.
  - destruct (is_Exception e) eqn:Hex.
    + destruct (exn_cls e) eqn:Hcls; simpl; rewrite ?Hex;
        (destruct (Z.of_nat i <? max_attempts - 1)%Z; simpl;
         [destruct (delay_seconds <? 0)%Z; simpl |]);
        attempt_effect_done.
    + destruct (exn_cls e) eqn:Hcls; simpl; rewrite ?Hex; attempt_effect_done.
Qed.

(** What the loop over the attempts [a], [a + 1], ... up to the end of the
    budget adds to the state: [m - a] requests; a sleep of [delay_seconds]
    between two attempts and nowhere else; the callback called at most once
    per attempt, with the attempt index and the payload of that attempt; an
    exception only from an attempt where something that is no instance of
    [Exception] was raised, or from a [time.sleep] that refused the delay;
    and with a negative delay, one request at most. *)
Lemma poll_loop_effect (n : nat) :
  forall (a : nat) (s : PollState),
    fetches s = a ->
    a + n = Z.to_nat max_attempts ->
    exists r t m,
      poll_loop remote callback project_id max_attempts delay_seconds (seq a n) s
      = (r, mkPoll m (trace s ++ t))
      /\ a <= m <= a + n
      /\ (0 < n -> a < m)
      /\ sleeps t = repeat delay_seconds (m - a - 1)
      /\ (forall c, In c (callback_calls t) ->
                    a <= fst c < m /\ remote (fst c) = FetchOk (snd c)
                    /\ exists st, derived_status (snd c) = Ok st)
      /\ length (callback_calls t) <= m - a
      /\ (forall e, r = Raise e ->
                    exists i, a <= i < m
                      /\ ((is_Exception e = false
                           /\ ~ catchable_at callback remote i)
                          \/ (e = sleep_error
                              /\ refused_sleep max_attempts delay_seconds i
                                 = true)))
      /\ ((delay_seconds < 0)%Z -> m <= S a).
Proof.
  induction n as [| n IH]; intros a s Hs Hn.
  - destruct s as [k t0]. simpl in Hs. subst k.
    exists (Ok false), [ELog Warning LogMaxAttempts], a.
    simpl. repeat split; try lia; try contradiction; try discriminate.
    replace (a - a - 1) with 0 by lia. reflexivity.
  - destruct (attempt_body_effect a s Hs)
      as [r [t [Hrun [Hsl [Hcb [Hlen [Hraise Hnone]]]]]]].
    simpl seq. simpl poll_loop. unfold bind at 1. rewrite Hrun.
    destruct r as [[b |] | e].
    + exists (Ok b), t, (S a).
      split; [reflexivity |]. split; [lia |]. split; [lia |].
      split; [rewrite Hsl; replace (S a - a - 1) with 0 by lia; reflexivity |].
      split; [intros c Hc; destruct (Hcb c Hc) as [H1 [H2 H3]]; rewrite H1;
              repeat split; try lia; assumption |].
      split; [lia |]. split; [discriminate | lia].
    + destruct (IH (S a) (mkPoll (S a) (trace s ++ t)) eq_refl)
        as [r' [t' [m [Hrun' [Hm [Hpos [Hsl' [Hcb' [Hlen' [Hraise' Hneg']]]]]]]]]];
        [lia |].
      rewrite Hrun'. simpl trace.
      exists r', (t ++ t')%list, m.
      split; [rewrite app_assoc; reflexivity |].
      split; [lia |]. split; [lia |].
      split.
      { rewrite sleeps_app, Hsl, Hsl'.
        destruct n as [| n].
        - assert (m = S a) by lia. subst m.
          destruct (Z.of_nat a <? max_attempts - 1)%Z eqn:Hlt;
            [apply Z.ltb_lt in Hlt; lia |].
          replace (S a - a - 1) with 0 by lia.
          replace (S a - S a - 1) with 0 by lia. reflexivity.
        - assert (S a < m) by (apply Hpos; lia).
          destruct (Z.of_nat a <? max_attempts - 1)%Z eqn:Hlt;
            [| apply Z.ltb_ge in Hlt; lia].
          replace (m - a - 1) with (S (m - S a - 1)) by lia. reflexivity. }
      split.
      { intros c Hc. rewrite callback_calls_app in Hc.
        apply in_app_or in Hc. destruct Hc as [Hc | Hc].
        - destruct (Hcb c Hc) as [H1 [H2 H3]]. rewrite H1.
          repeat split; try lia; assumption.
        - destruct (Hcb' c Hc) as [H1 [H2 H3]].
          repeat split; try lia; assumption. }
      split.
      { rewrite callback_calls_app, length_app. lia. }
      split.
      { intros e He. destruct (Hraise' e He) as [i [Hi Hc]].
        exists i. split; [lia | exact Hc]. }
      intros Hneg.
      pose proof (Hnone eq_refl) as Href. unfold refused_sleep in Href.
      destruct (Z.ltb_spec (Z.of_nat a) (max_attempts - 1)) as [Hlt | Hge];
        [destruct (Z.ltb_spec delay_seconds 0); [discriminate | lia] |].
      lia.
    + exists (Raise e), t, (S a).
      split; [reflexivity |]. split; [lia |]. split; [lia |].
      split; [rewrite Hsl; replace (S a - a - 1) with 0 by lia; reflexivity |].
      split; [intros c Hc; destruct (Hcb c Hc) as [H1 [H2 H3]]; rewrite H1;
              repeat split; try lia; assumption |].
      split; [lia |].
      split; [| lia].
      intros e0 [= <-]. exists a. split; [lia |]. apply (Hraise e eq_refl).
Qed.

(** The same for the whole call, from the initial state. *)
Lemma wait_for_completion_effect :
  exists r t m,
    wait_for_completion remote callback project_id max_attempts delay_seconds init
    = (r, mkPoll m t)
    /\ m <= Z.to_nat max_attempts
    /\ sleeps t = repeat delay_seconds (m - 1)
    /\ (forall c, In c (callback_calls t) ->
                  fst c < m /\ remote (fst c) = FetchOk (snd c)
                  /\ exists st, derived_status (snd c) = Ok st)
    /\ length (callback_calls t) <= m
    /\ (forall e, r = Raise e ->
                  exists i, i < m
                    /\ ((is_Exception e = false
                         /\ ~ catchable_at callback remote i)
                        \/ (e = sleep_error
                            /\ refused_sleep max_attempts delay_seconds i
                               = true)))
    /\ ((delay_seconds < 0)%Z -> m <= 1).
Proof.
  unfold wait_for_completion, range, bind at 1, log, emit. simpl.
  destruct (poll_loop_effect (Z.to_nat max_attempts) 0
              (mkPoll 0 [ELog Info LogWaiting]) eq_refl eq_refl)
    as [r [t [m [Hrun [Hm [_ [Hsl [Hcb [Hlen [Hraise Hneg]]]]]]]]]].
  rewrite Hrun. simpl trace.
  exists r, (ELog Info LogWaiting :: t), m.
  split; [reflexivity |]. split; [lia |].
  split; [simpl; rewrite Hsl; f_equal; lia |].
  split; [intros c Hc; simpl in Hc; destruct (Hcb c Hc) as [H1 H2];
          split; [lia | exact H2] |].
  split; [simpl; lia |].
  split; [| exact Hneg].
  intros e He. destruct (Hraise e He) as [i [Hi Hc]].
  exists i. split; [lia | exact Hc].
Qed.

End PollerRuns.

(* ===================================================================== *)
(** ** The completion poller: terminal statuses, timeout, swallowed errors *)
(* ===================================================================== *)












(* ===================================================================== *)
(** ** The completion poller: the callback and payloads without a status *)
(* ===================================================================== *)

(** C4: the code does not do what the claim and the docstring of
    [wait_for_completion] ("True if project completed successfully") say.
    The remote answers COMPLETE at once and the callback raises
    [ValueError].  Without the callback the call returns [True] after one
    request.  With it, the exception of the callback is caught by the
    handler of the status check, logged as an error of that check, and the
    comparison with COMPLETE is skipped: the call uses the whole budget of
    two attempts, fetching COMPLETE twice, and returns [False]. *)
Lemma raising_callback_hides_complete :
  wait_for_completion (always "COMPLETE") None "p1" 2 15 init
  = (Ok true,
     mkPoll 1
       [ELog Info LogWaiting;
        ELog Info LogGetting; EGetProject "p1"; ELog Info LogRetrieved;
        ELog Info (LogPoll 0 (JStr "COMPLETE"));
        ELog Info (LogCompleted 0)])
  /\ wait_for_completion (always "COMPLETE") (Some raising_callback) "p1" 2 15 init
     = (Ok false,
        mkPoll 2
          [ELog Info LogWaiting;
           ELog Info LogGetting; EGetProject "p1"; ELog Info LogRetrieved;
           ELog Info (LogPoll 0 (JStr "COMPLETE"));
           ECallback 0 (JObj [("job", JObj [("status", JStr "COMPLETE")])]);
           ELog Error (LogErrorChecking 0 (PyExn ValueError "callback failed"));
           ELog Info LogSleeping; ESleep 15;
           ELog Info LogGetting; EGetProject "p1"; ELog Info LogRetrieved;
           ELog Info (LogPoll 1 (JStr "COMPLETE"));
           ECallback 1 (JObj [("job", JObj [("status", JStr "COMPLETE")])]);
           ELog Error (LogErrorChecking 1 (PyExn ValueError "callback failed"));
           ELog Warning LogMaxAttempts]).
Proof. split; reflexivity. Qed.





(* ===================================================================== *)
(** ** utils.py: file names, input files, output directories *)
(* ===================================================================== *)

Import Utils.

Example output_name_short :
  output_file_name "dub" "abcdef123" "mp4" false (mkDatetime 2024 3 7 9 5 1)
  = "dub_abcde_20240307_090501.mp4".
Proof. reflexivity. Qed.

Example output_name_full :
  output_file_name "dub" "my project 7" "mp4" true (mkDatetime 2024 3 7 9 5 1)
  = "dub_my_project_7_20240307_090501.mp4".
Proof. reflexivity. Qed.

Example output_file_in_directory :
  path_str (make_output_file "dub" "abcdef123"
              (path_of_string "/home/u/Desktop") "mp4" false
              (mkDatetime 2024 3 7 9 5 1))
  = "/home/u/Desktop/dub_abcde_20240307_090501.mp4".
Proof. reflexivity. Qed.


Lemma replace_spaces_length (s : string) :
  String.length (replace_spaces s) = String.length s.
Proof. induction s as [| c s IH]; simpl; congruence. Qed.

Lemma strftime_date_time_length (now : datetime) :
  String.length (strftime_date_time now) = 15.
Proof. reflexivity. Qed.


(** The allow-list of [check_media_file] holds the eleven extensions, each
    with its dot, and nothing else. *)
Lemma check_media_file_allow_list (path : Path) :
  check_media_file path
  = existsb (fun ext => String.eqb (lower (suffix path)) ("." ++ ext))
            allowed_extensions.
Proof. reflexivity. Qed.

Example upper_case_extension_accepted :
  check_media_file (path_of_string "/media/Talk.MP4") = true.
Proof. reflexivity. Qed.

Example text_file_rejected :
  check_media_file (path_of_string "/media/notes.txt") = false.
Proof. reflexivity. Qed.

Example dot_file_has_no_extension :
  check_media_file (path_of_string "/media/.mp3") = false.
Proof. reflexivity. Qed.

(** [handle_input_file] returns the path exactly when the path is absolute
    or SPEECHLAB_MCP_BASE_PATH is set to a non-empty value, the file exists,
    is a regular file and, when the media check is on, its extension in
    lower case is one of the allow-list.  In every other case it raises
    [SpeechlabMcpError]. *)
Lemma handle_input_file_cases
    (env : Env) (fs : FS) (file_path : string) (audio_content_check : bool) :
  match handle_input_file env fs file_path audio_content_check with
  | Ok path =>
      path = path_of_string file_path
      /\ (isabs file_path || nonempty (base_path env)) = true
      /\ accepted_by_file_alone fs file_path audio_content_check = true
  | Raise e =>
      exn_cls e = SpeechlabMcpError
      /\ ((isabs file_path || nonempty (base_path env))
          && accepted_by_file_alone fs file_path audio_content_check) = false
  end.
Proof.
  unfold handle_input_file, accepted_by_file_alone.
  rewrite <- check_media_file_allow_list.
  destruct (isabs file_path); destruct (nonempty (base_path env)); simpl;
    try (split; reflexivity);
    destruct (fs_exists fs (path_of_string file_path)); simpl;
    try (split; reflexivity);
    destruct (fs_is_file fs (path_of_string file_path)); simpl;
    try (split; reflexivity);
    destruct audio_content_check; simpl;
    try (repeat split; reflexivity);
    destruct (check_media_file (path_of_string file_path)); simpl;
    repeat split; reflexivity.
Qed.

(* ===================================================================== *)
(** ** utils.py: the output directory *)
(* ===================================================================== *)

Lemma mkdir_parents_unfold (a : nat) (rp : list string) (exist_ok : bool) (fs : FS) :
  mkdir_parents a rp exist_ok fs
  = match os_mkdir (mkPath a (rev rp)) fs with
    | (Ok tt, fs') => (Ok tt, fs')
    | (Raise e, fs') =>
        if is_FileNotFoundError e then
          match rp with
          | [] => (Raise e, fs')
          | _ :: up =>
              match mkdir_parents a up true fs' with
              | (Ok tt, fs1) => mkdir_single (mkPath a (rev rp)) exist_ok fs1
              | (Raise e1, fs1) => (Raise e1, fs1)
              end
          end
        else if exist_ok && fs_is_dir fs' (mkPath a (rev rp)) then (Ok tt, fs')
        else (Raise e, fs')
    end.
Proof. destruct rp; reflexivity. Qed.

(** Left to itself, the recursive [mkdir] makes the missing parents too. *)
Example mkdir_makes_parents :
  let fs := fs_of [("/", dir_rw)] in
  fst (mkdir (path_of_string "/a/b/c") true fs) = Ok tt
  /\ fs_is_dir (snd (mkdir (path_of_string "/a/b/c") true fs))
               (path_of_string "/a/b") = true
  /\ fs_is_dir (snd (mkdir (path_of_string "/a/b/c") true fs))
               (path_of_string "/a/b/c") = true.
Proof. repeat split; reflexivity. Qed.

(** When the parent exists, [mkdir] on a missing path is one [os.mkdir]. *)
Lemma mkdir_with_parent (p : Path) (fs : FS) (d : node) :
  fs p = None ->
  fs (parent p) = Some d ->
  mkdir p true fs
  = if is_dir d && writable d
    then (Ok tt, fs_add fs p (mkNode true true))
    else (Raise (PyExn (if is_dir d then PermissionError else NotADirectoryError)
                       (path_str p)), fs).
Proof.
  intros Hp Hd. unfold mkdir. rewrite mkdir_parents_unfold, rev_involutive.
  destruct p as [a l]. simpl anchor; simpl parts.
  unfold os_mkdir. rewrite Hd.
  destruct (is_dir d); simpl.
  - rewrite Hp. destruct (writable d); simpl; [reflexivity |].
    unfold fs_is_dir. rewrite Hp. reflexivity.
  - unfold fs_is_dir. rewrite Hp. reflexivity.
Qed.

(** C10.  Let the requested output directory resolve to a path that does not
    exist.  When its parent does not exist either, [make_output_path] raises
    the 'not writeable' error and leaves the file system as it is: the
    recursive [mkdir] is not reached.  And whenever [make_output_path]
    returns, the parent of the path existed, was a directory the process may
    write to, and the one directory made is the path itself. *)
Theorem make_output_path_needs_parent
    (env : Env) (output_directory base_path : option string) (fs : FS) :
  let path := resolve_output_path env output_directory base_path in
  fs path = None ->
  (fs (parent path) = None ->
   make_output_path env output_directory base_path fs
   = (Raise (PyExn SpeechlabMcpError
               ("Directory (" ++ path_str path ++ ") is not writeable")), fs))
  /\ (forall q fs',
        make_output_path env output_directory base_path fs = (Ok q, fs') ->
        q = path
        /\ fs' = fs_add fs path (mkNode true true)
        /\ exists d, fs (parent path) = Some d
                     /\ is_dir d = true /\ writable d = true).
Proof.
  intros path Hp. unfold make_output_path. fold path.
  unfold is_file_writeable, fs_exists, access_W_OK. rewrite Hp.
  split.
  - intros Hpar. rewrite Hpar. reflexivity.
  - intros q fs'. destruct (fs (parent path)) as [d |] eqn:Hpar; simpl.
    + destruct (writable d) eqn:Hw; simpl; [| discriminate].
      rewrite (mkdir_with_parent path fs d Hp Hpar), Hw.
      destruct (is_dir d) eqn:Hdir; simpl; [| discriminate].
      intros [= <- <-]. repeat split. exists d. auto.
    + discriminate.
Qed.

Lemma make_output_path_needs_parent_witness :
  make_output_path (plain_env None) (Some "/data/out/dubs") None
    (fs_of [("/", dir_rw); ("/data", dir_rw)])
  = (Raise (PyExn SpeechlabMcpError "Directory (/data/out/dubs) is not writeable"),
     fs_of [("/", dir_rw); ("/data", dir_rw)]).
Proof.
  exact (proj1 (make_output_path_needs_parent (plain_env None)
                  (Some "/data/out/dubs") None
                  (fs_of [("/", dir_rw); ("/data", dir_rw)]) eq_refl)
               eq_refl).
Defined.

(** One level down the directory is made. *)
Example make_output_path_with_parent :
  let fs := fs_of [("/", dir_rw); ("/data", dir_rw)] in
  fst (make_output_path (plain_env None) (Some "/data/out") None fs)
  = Ok (path_of_string "/data/out")
  /\ fs_is_dir (snd (make_output_path (plain_env None) (Some "/data/out") None fs))
               (path_of_string "/data/out") = true.
Proof. split; reflexivity. Qed.

(* ===================================================================== *)
(** ** Creating a project: the language code sent and the one reported *)
(* ===================================================================== *)

Import Tools.

Example spanish_is_sent_as_es_la :
  st_trace (snd (create_project_and_dub echo_remote (plain_env None) noon
                   "demo" "en" "es" None empty_state))
  = [Http (PostCreateProject
             (JObj [("name", JStr "demo");
                    ("sourceLanguage", JStr "en");
                    ("targetLanguage", JStr "es_la");
                    ("dubAccent", JStr "es_la");
                    ("voiceMatchingMode", JStr "source");
                    ("unitType", JStr "whiteGlove");
                    ("thirdPartyID", JStr "mcp_20240307120000")]))].
Proof. reflexivity. Qed.

Example unauthorized_create_is_reported :
  fst (create_project_and_dub
         (fun _ => Raise (MkExn HTTPStatusError "Client error '401 Unauthorized'"
                            (Some (401%Z, "invalid key"))))
         (plain_env None) noon "demo" "en" "es" None empty_state)
  = Raise (PyExn SpeechlabMcpError "HTTP error occurred: 401 - invalid key").
Proof. reflexivity. Qed.

Example french_is_sent_unchanged :
  api_target_language "fr" = "fr".
Proof. reflexivity. Qed.

(** C5, as stated, fails: the project is requested with target "es", the
    remote stores and answers "es_la", and both tools report "es_la": the
    server tool in its "Target Language" line, the client in the dict it
    returns. *)
Lemma reported_language_is_the_remote_one :
  fst (create_project_and_dub echo_remote (plain_env None) noon
         "demo" "en" "es" None empty_state)
  = Ok ("Project created successfully:" ++ nl
        ++ "ID: p1" ++ nl
        ++ "Name: demo" ++ nl
        ++ "Source Language: en" ++ nl
        ++ "Target Language: es_la" ++ nl
        ++ "Status: created")
  /\ fst (create_project echo_remote noon "demo" "en" "es" empty_state)
     = Ok (JObj [("id", JStr "p1"); ("name", JStr "demo");
                 ("sourceLanguage", JStr "en"); ("targetLanguage", JStr "es_la")]).
Proof. split; reflexivity. Qed.

(** The project built from a response carries the response's own
    "targetLanguage". *)
Lemma dub_project_target_language
    (now : datetime) (project_data : json) (source_file : option string)
    (p : McpDubProject) :
  dub_project_of_response now project_data source_file = Ok p ->
  py_item project_data "targetLanguage" = Ok (JStr (target_language p)).
Proof.
  unfold dub_project_of_response, rbind.
  repeat match goal with
         | |- context [match ?r with Ok _ => _ | Raise _ => _ end] =>
             destruct r eqn:?; try discriminate
         end.
  intros [= <-]. simpl.
  match goal with
  | H : str_field ?v = Ok ?s |- Ok ?v = Ok (JStr ?s) =>
      destruct v; simpl in H; try discriminate; injection H as ->; reflexivity
  end.
Qed.

(** The handlers of a tool keep the state the body ends in. *)
Lemma tool_handlers_state {A} (context : string) (body : M State A) (s : State) :
  snd (tool_handlers context body s) = snd (body s).
Proof.
  unfold tool_handlers. destruct (body s) as [[a | e] s']; [reflexivity |].
  destruct (exn_cls e); simpl; try reflexivity;
    destruct (is_Exception e); reflexivity.
Qed.

Lemma tool_handlers_ok {A} (context : string) (body : M State A) (s : State) (a : A) :
  fst (tool_handlers context body s) = Ok a -> fst (body s) = Ok a.
Proof.
  unfold tool_handlers. destruct (body s) as [[a' | e] s']; [auto |].
  destruct (exn_cls e); simpl; try discriminate;
    destruct (is_Exception e); simpl; try discriminate;
    unfold is_Exception in *.
Qed.

(** What [create_project_and_dub] does after the create request was
    answered with [project_data]: it sends no second create request, and the
    text it returns is the one of the project built from the answer. *)
Lemma create_project_and_dub_run
    (respond : request -> result json) (env : Env) (now : datetime)
    (name source_language target_language : string)
    (source_file : option string) (s : State) :
  let body := create_body now "mcp_" name source_language target_language in
  exists rest,
    st_trace (snd (create_project_and_dub respond env now name source_language
                     target_language source_file s))
    = (st_trace s ++ Http (PostCreateProject body) :: rest)%list
    /\ (forall b, ~ In (Http (PostCreateProject b)) rest)
    /\ match fst (create_project_and_dub respond env now name source_language
                    target_language source_file s) with
       | Ok text =>
           exists project_data p,
             respond (PostCreateProject body) = Ok project_data
             /\ dub_project_of_response now project_data source_file = Ok p
             /\ text = created_text p
       | Raise _ => True
       end.
Proof.
  intros body.
  unfold create_project_and_dub.
  match goal with
  | |- context [tool_handlers ?c ?b s] =>
      set (run := b); 
      assert (Hrun : exists rest,
                 st_trace (snd (run s))
                 = (st_trace s ++ Http (PostCreateProject body) :: rest)%list
                 /\ (forall b0, ~ In (Http (PostCreateProject b0)) rest)
                 /\ match fst (run s) with
                    | Ok text =>
                        exists project_data p,
                          respond (PostCreateProject body) = Ok project_data
                          /\ dub_project_of_response now project_data source_file = Ok p
                          /\ text = created_text p
                    | Raise _ => True
                    end)
  end.
  { unfold run, bind, http, when, read_fs, lift, ret. fold body. simpl.
    destruct (respond (PostCreateProject body)) as [data | e] eqn:Hresp; simpl.
    - destruct (nonempty source_file); simpl.
      + destruct (handle_input_file env (st_fs s) _ true) as [fp | e]; simpl.
        * destruct (py_item data "id") as [pid | e]; simpl.
          { destruct (respond (PostUpload pid fp)) as [u | e]; simpl.
            - destruct (dub_project_of_response now data source_file) as [p | e] eqn:Hp;
                simpl.
              + exists [Http (PostUpload pid fp)]. rewrite <- app_assoc. simpl.
                repeat split; eauto.
                intros b [H | []]; discriminate.
              + exists [Http (PostUpload pid fp)]. rewrite <- app_assoc. simpl.
                repeat split; eauto.
                intros b [H | []]; discriminate.
            - exists [Http (PostUpload pid fp)]. rewrite <- app_assoc. simpl.
              repeat split; eauto.
              intros b [H | []]; discriminate. }
          exists []. repeat split; auto.
        * exists []. repeat split; auto.
      + destruct (dub_project_of_response now data source_file) as [p | e] eqn:Hp;
          simpl; exists []; repeat split; eauto.
    - exists []. repeat split; auto. }
  destruct Hrun as [rest [Ht [Hno Hres]]].
  exists rest. rewrite tool_handlers_state. split; [exact Ht |]. split; [exact Hno |].
  destruct (fst (tool_handlers "Error creating project: " run s)) as [text | e] eqn:Hf;
    [| exact I].
  apply tool_handlers_ok in Hf. rewrite Hf in Hres. exact Hres.
Qed.

(** C5, amended.  With the target language "es", the create request of
    server.py and the one of client.py both carry "es_la" as targetLanguage
    and as dubAccent; each tool sends exactly one create request, that one.
    The target language reported back is the one of the remote's answer: the
    server tool prints the "targetLanguage" of the response, the client
    returns the response as it is. *)
Theorem spanish_request_uses_es_la
    (respond : request -> result json) (env : Env) (now : datetime)
    (name source_language : string) (source_file : option string) (s : State) :
  let body_server := create_body now "mcp_" name source_language "es" in
  let body_client := create_body now "client_" name source_language "es" in
  (py_item body_server "targetLanguage" = Ok (JStr "es_la")
   /\ py_item body_server "dubAccent" = Ok (JStr "es_la")
   /\ py_item body_client "targetLanguage" = Ok (JStr "es_la")
   /\ py_item body_client "dubAccent" = Ok (JStr "es_la"))
  /\ (exists rest,
        st_trace (snd (create_project_and_dub respond env now name
                         source_language "es" source_file s))
        = (st_trace s ++ Http (PostCreateProject body_server) :: rest)%list
        /\ forall b, ~ In (Http (PostCreateProject b)) rest)
  /\ st_trace (snd (create_project respond now name source_language "es" s))
     = (st_trace s ++ [Http (PostCreateProject body_client)])%list
  /\ match fst (create_project_and_dub respond env now name
                  source_language "es" source_file s) with
     | Ok text =>
         exists project_data p,
           respond (PostCreateProject body_server) = Ok project_data
           /\ py_item project_data "targetLanguage" = Ok (JStr (target_language p))
           /\ text = created_text p
     | Raise _ => True
     end
  /\ fst (create_project respond now name source_language "es" s)
     = respond (PostCreateProject body_client).
Proof.
  intros body_server body_client.
  destruct (create_project_and_dub_run respond env now name source_language
              "es" source_file s) as [rest [Ht [Hno Hres]]].
  split; [repeat split |].
  split; [exists rest; split; assumption |].
  assert (Hc : create_project respond now name source_language "es" s
               = (respond (PostCreateProject body_client),
                  mkState (st_fs s)
                          (st_trace s ++ [Http (PostCreateProject body_client)]))).
  { unfold create_project, try_except_HTTPStatusError, http, raise.
    fold body_client.
    destruct (respond (PostCreateProject body_client)) as [d | e];
      [reflexivity |].
    destruct (exn_cls e); reflexivity. }
  rewrite Hc. simpl. split; [reflexivity |]. split; [| reflexivity].
  destruct (fst (create_project_and_dub respond env now name source_language
                   "es" source_file s)) as [text | e]; [| exact I].
  destruct Hres as [data [p [Hresp [Hp Htext]]]].
  exists data, p. repeat split; try assumption.
  eapply dub_project_target_language; eassumption.
Qed.

(** [upload_media] of server.py checks the file first: when the check fails
    no request is sent. *)
Lemma upload_media_checks_before_request
    (respond : request -> result json) (env : Env)
    (project_id file_path : string) (s : State) (e : pyexn) :
  handle_input_file env (st_fs s) file_path true = Raise e ->
  snd (upload_media respond env project_id file_path s) = s.
Proof.
  intros H. unfold upload_media. rewrite tool_handlers_state.
  unfold bind, read_fs, lift. simpl. rewrite H. reflexivity.
Qed.

(** In [create_project_and_dub] the file is checked after the project was
    created: with a source file that does not exist the create request has
    been sent when the error is raised. *)
Example create_request_precedes_file_check :
  create_project_and_dub echo_remote (plain_env None) noon
    "demo" "en" "fr" (Some "/media/missing.mp4") (mkState (fun _ => None) [])
  = (Raise (PyExn SpeechlabMcpError
       "Error creating project: File (/media/missing.mp4) does not exist"),
     mkState (fun _ => None)
       [Http (PostCreateProject
                (JObj [("name", JStr "demo");
                       ("sourceLanguage", JStr "en");
                       ("targetLanguage", JStr "fr");
                       ("dubAccent", JStr "fr");
                       ("voiceMatchingMode", JStr "source");
                       ("unitType", JStr "whiteGlove");
                       ("thirdPartyID", JStr "mcp_20240307120000")]))]).
Proof. reflexivity. Qed.

(* ===================================================================== *)
(** ** The input file check and the requests around it *)
(* ===================================================================== *)

(** C8, as stated, fails on both counts.  (i) "song.mp3" exists, is a
    regular file and has an extension of the allow-list, but the path is
    relative and SPEECHLAB_MCP_BASE_PATH is not set: [handle_input_file]
    raises.  (ii) [create_project_and_dub] with a source file that does not
    exist raises the error of the check after the create request has been
    sent: the check does not come before any network call. *)
Lemma relative_media_file_rejected :
  accepted_by_file_alone (fs_of [("song.mp3", file_rw)]) "song.mp3" true = true
  /\ handle_input_file (plain_env None) (fs_of [("song.mp3", file_rw)])
       "song.mp3" true
     = Raise (PyExn SpeechlabMcpError
        "File path must be an absolute path if SPEECHLAB_MCP_BASE_PATH is not set")
  /\ create_project_and_dub echo_remote (plain_env None) noon
       "demo" "en" "fr" (Some "/media/missing.mp4") (mkState (fun _ => None) [])
     = (Raise (PyExn SpeechlabMcpError
          "Error creating project: File (/media/missing.mp4) does not exist"),
        mkState (fun _ => None)
          [Http (PostCreateProject
                   (create_body noon "mcp_" "demo" "en" "fr"))]).
Proof. split; [| split]; reflexivity. Qed.

(** C8, amended.  [handle_input_file] returns the path exactly when the path
    is absolute or SPEECHLAB_MCP_BASE_PATH is set to a non-empty value, the
    file exists, is a regular file and, when the media check is on, its
    extension in lower case is one of .mp3 .wav .m4a .aac .ogg .flac .mp4
    .mov .avi .mkv .webm.  In every other case it raises
    [SpeechlabMcpError].  Of the two tools that call it, [upload_media]
    checks first: when the check fails the tool raises the error, with its
    own prefix, and has sent no request.  [create_project_and_dub] checks
    after the create request: when that request was answered and the check
    then fails, the tool raises the error having sent the create request,
    and nothing after it. *)
Theorem handle_input_file_accepts
    (env : Env) (fs : FS) (file_path : string) (audio_content_check : bool) :
  match handle_input_file env fs file_path audio_content_check with
  | Ok path =>
      path = path_of_string file_path
      /\ (isabs file_path || nonempty (base_path env)) = true
      /\ accepted_by_file_alone fs file_path audio_content_check = true
  | Raise e =>
      exn_cls e = SpeechlabMcpError
      /\ ((isabs file_path || nonempty (base_path env))
          && accepted_by_file_alone fs file_path audio_content_check) = false
  end
  /\ (forall (respond : request -> result json) (project_id : string)
             (done : list effect) (e : pyexn),
        handle_input_file env fs file_path true = Raise e ->
        upload_media respond env project_id file_path (mkState fs done)
        = (Raise (PyExn SpeechlabMcpError
                    ("Error uploading media: " ++ exn_msg e)),
           mkState fs done))
  /\ (forall (respond : request -> result json) (now : datetime)
             (name source_language target_language : string)
             (done : list effect) (e : pyexn) (project_data : json),
        file_path <> "" ->
        handle_input_file env fs file_path true = Raise e ->
        respond (PostCreateProject
                   (create_body now "mcp_" name source_language target_language))
        = Ok project_data ->
        create_project_and_dub respond env now name source_language
          target_language (Some file_path) (mkState fs done)
        = (Raise (PyExn SpeechlabMcpError
                    ("Error creating project: " ++ exn_msg e)),
           mkState fs
             (done ++ [Http (PostCreateProject
                               (create_body now "mcp_" name source_language
                                  target_language))]))).
Proof.
  split; [apply handle_input_file_cases |].
  assert (Hcls : forall e, handle_input_file env fs file_path true = Raise e ->
                           exn_cls e = SpeechlabMcpError).
  { intros e He. pose proof (handle_input_file_cases env fs file_path true) as H.
    rewrite He in H. exact (proj1 H). }
  split.
  - intros respond project_id done e He.
    pose proof (Hcls e He) as Hc.
    unfold upload_media, tool_handlers, bind, read_fs, lift. cbn [st_fs].
    rewrite He. unfold is_Exception. rewrite Hc. reflexivity.
  - intros respond now name source_language target_language done e project_data
      Hne He Hresp.
    pose proof (Hcls e He) as Hc.
    assert (Hnonempty : nonempty (Some file_path) = true).
    { simpl. destruct file_path; [congruence | reflexivity]. }
    unfold create_project_and_dub, tool_handlers, bind, http, when, read_fs,
      lift. cbn [st_fs st_trace].
    rewrite Hresp, Hnonempty. cbn [st_fs st_trace]. rewrite He.
    unfold is_Exception. rewrite Hc. reflexivity.
Qed.

Lemma handle_input_file_accepts_witness :
  upload_media echo_remote (plain_env None) "p1" "/media/notes.txt"
    (mkState (fs_of [("/media/notes.txt", file_rw)]) [])
  = (Raise (PyExn SpeechlabMcpError
       ("Error uploading media: "
        ++ "File (/media/notes.txt) is not a recognized media file")),
     mkState (fs_of [("/media/notes.txt", file_rw)]) [])
  /\ create_project_and_dub echo_remote (plain_env None) noon "demo" "en" "fr"
       (Some "/media/notes.txt")
       (mkState (fs_of [("/media/notes.txt", file_rw)]) [])
     = (Raise (PyExn SpeechlabMcpError
          ("Error creating project: "
           ++ "File (/media/notes.txt) is not a recognized media file")),
        mkState (fs_of [("/media/notes.txt", file_rw)])
          ([] ++ [Http (PostCreateProject
                          (create_body noon "mcp_" "demo" "en" "fr"))])).
Proof.
  split.
  - apply (proj1 (proj2 (handle_input_file_accepts (plain_env None)
                           (fs_of [("/media/notes.txt", file_rw)])
                           "/media/notes.txt" true))
             echo_remote "p1" []
             (PyExn SpeechlabMcpError
                "File (/media/notes.txt) is not a recognized media file")).
    reflexivity.
  - apply (proj2 (proj2 (handle_input_file_accepts (plain_env None)
                           (fs_of [("/media/notes.txt", file_rw)])
                           "/media/notes.txt" true))
             echo_remote noon "demo" "en" "fr" []
             (PyExn SpeechlabMcpError
                "File (/media/notes.txt) is not a recognized media file")
             (JObj [("id", JStr "p1"); ("name", JStr "demo");
                    ("sourceLanguage", JStr "en"); ("targetLanguage", JStr "fr")])).
    + discriminate.
    + reflexivity.
    + reflexivity.
Defined.

(* ===================================================================== *)
(** ** Downloading a result: where the URL comes from *)
(* ===================================================================== *)

Example second_translation_is_searched :
  search_translations true
    [translation_entry [dub_entry [media_entry "INPUT" (JStr "https://cdn/in.mp4");
                                   media_entry "OUTPUT" JNull]];
     translation_entry [dub_entry [media_entry "INPUT" (JStr "https://cdn/in.mp4");
                                   media_entry "OUTPUT" (JStr "https://cdn/out.mp4")]]]
  = Ok (Some (JStr "https://cdn/out.mp4")).
Proof. reflexivity. Qed.

Example download_from_second_translation :
  fst (download_dubbing_result (project_remote two_translations JNull)
         (plain_env None) noon "p1" None desktop_state)
  = Ok ("Dubbing result downloaded successfully." ++ nl ++ "File saved at: "
        ++ "/home/u/Desktop/dub_proje_20240307_120000.mp4")
  /\ st_trace (snd (download_dubbing_result (project_remote two_translations JNull)
                      (plain_env None) noon "p1" None desktop_state))
     = [Http (GetProject "p1"); Http (GetUrl (JStr "https://cdn/out.mp4"));
        WriteFile (path_of_string "/home/u/Desktop/dub_proje_20240307_120000.mp4")]
  /\ fst (download_result (project_remote two_translations JNull)
            (plain_env None) noon "p1" None desktop_state)
     = Ok "/home/u/Desktop/dub_project_p1_20240307_120000.mp4".
Proof. repeat split; reflexivity. Qed.

(** C6, as stated, fails for the server tool: the payload has no translation,
    the download endpoint does hold a URL, and [download_dubbing_result]
    raises without asking the endpoint, where [download_result] of client.py
    asks it and downloads. *)
Lemma server_does_not_fall_back_without_translations :
  download_dubbing_result
    (project_remote (project_payload []) (JObj [("url", JStr "https://cdn/f.mp4")]))
    (plain_env None) noon "p1" None (mkState (fun _ => None) [])
  = (Raise (PyExn SpeechlabMcpError
       "Error downloading dubbing result: No translations found in the project."),
     mkState (fun _ => None) [Http (GetProject "p1")])
  /\ st_trace (snd (download_result
                      (project_remote (project_payload [])
                                      (JObj [("url", JStr "https://cdn/f.mp4")]))
                      (plain_env None) noon "p1" None desktop_state))
     = [Http (GetProject "p1"); Http (GetDownloadUrl "p1");
        Http (GetUrl (JStr "https://cdn/f.mp4"));
        WriteFile (path_of_string
                     "/home/u/Desktop/dub_project_p1_20240307_120000.mp4")].
Proof. split; reflexivity. Qed.

Lemma find_app_first {A} (f : A -> bool) (l1 l2 : list A) :
  find f (l1 ++ l2)
  = match find f l1 with
    | Some x => Some x
    | None => find f l2
    end.
Proof.
  induction l1 as [| x l1 IH]; simpl; [reflexivity |].
  destruct (f x); [reflexivity | exact IH].
Qed.

(** The three loops on a payload of the API's shape: the first output media
    with a presigned URL, medias taken dub by dub. *)
Lemma search_medias_first (medias : list json) :
  forallb is_dict medias = true ->
  search_medias medias
  = Ok (option_map presigned_url (find is_output_with_url medias)).
Proof.
  induction medias as [| media rest IH]; simpl; [reflexivity |].
  intros H. apply andb_true_iff in H. destruct H as [Hm Hrest].
  destruct media as [| | | | | kvs]; try discriminate.
  unfold rbind; simpl.
  destruct (assoc "operationType" kvs) as [op |]; simpl.
  - destruct (eq_str op "OUTPUT"); simpl; [| auto].
    destruct (assoc "presignedURL" kvs) as [url |] eqn:Hu; simpl.
    + destruct (truthy url); simpl; [rewrite Hu; reflexivity | auto].
    + auto.
  - auto.
Qed.

Lemma search_dubs_first (dubs : list json) :
  forallb dub_well_shaped dubs = true ->
  search_dubs dubs
  = Ok (option_map presigned_url
          (find is_output_with_url (flat_map medias_of_dub dubs))).
Proof.
  induction dubs as [| dub rest IH]; simpl; [reflexivity |].
  intros H. apply andb_true_iff in H. destruct H as [Hd Hrest].
  rewrite find_app_first.
  destruct dub as [| | | | | kvs]; try discriminate.
  unfold rbind; simpl. simpl in Hd.
  destruct (assoc "medias" kvs) as [m |]; simpl.
  - destruct m as [| | | | l |]; try discriminate. simpl.
    rewrite (search_medias_first l Hd).
    destruct (find is_output_with_url l); simpl; [reflexivity | auto].
  - auto.
Qed.

Lemma search_translations_first (skip_empty : bool) (translations : list json) :
  well_shaped translations = true ->
  search_translations skip_empty translations
  = Ok (option_map presigned_url
          (find is_output_with_url (all_medias translations))).
Proof.
  unfold well_shaped, all_medias.
  induction translations as [| t rest IH]; simpl; [reflexivity |].
  intros H. apply andb_true_iff in H. destruct H as [Ht Hrest].
  rewrite find_app_first.
  destruct t as [| | | | | kvs]; try discriminate.
  unfold rbind; simpl. simpl in Ht.
  destruct (assoc "dub" kvs) as [d |]; simpl.
  - destruct d as [| | | | l |]; try discriminate. simpl.
    destruct l as [| dub l].
    + simpl. destruct skip_empty; simpl; auto.
    + rewrite andb_false_r.
      change (py_iter (JArr (dub :: l))) with (Ok (dub :: l)). cbv beta iota.
      rewrite (search_dubs_first (dub :: l) Ht).
      destruct (find is_output_with_url (flat_map medias_of_dub (dub :: l)));
        simpl; [reflexivity | auto].
  - destruct skip_empty; simpl; auto.
Qed.

Lemma fallback_url_run
    (respond : request -> result json) (project_id : string) (no_url : pyexn)
    (s : State) (kvs : list (string * json)) :
  respond (GetDownloadUrl project_id) = Ok (JObj kvs) ->
  fallback_url respond project_id no_url s
  = (match assoc "url" kvs with
     | Some url => Ok url
     | None => Raise no_url
     end,
     mkState (st_fs s) (st_trace s ++ [Http (GetDownloadUrl project_id)])).
Proof.
  intros H. unfold fallback_url, bind, http, lift, raise. rewrite H. simpl.
  destruct (assoc "url" kvs); reflexivity.
Qed.

(** Both tools stop where the URL could not be resolved. *)
Lemma download_dubbing_result_stops
    (respond : request -> result json) (env : Env) (now : datetime)
    (project_id : string) (output_directory : option string)
    (s s' : State) (msg : string) :
  resolve_url_server respond project_id s
  = (Raise (PyExn SpeechlabMcpError msg), s') ->
  download_dubbing_result respond env now project_id output_directory s
  = (Raise (PyExn SpeechlabMcpError ("Error downloading dubbing result: " ++ msg)),
     s').
Proof.
  intros H. unfold download_dubbing_result, tool_handlers, bind at 1.
  rewrite H. reflexivity.
Qed.

Lemma download_result_stops
    (respond : request -> result json) (env : Env) (now : datetime)
    (project_id : string) (output_directory : option string)
    (s s' : State) (msg : string) :
  resolve_url_client respond project_id s = (Raise (PyExn ValueError msg), s') ->
  download_result respond env now project_id output_directory s
  = (Raise (PyExn ValueError msg), s').
Proof.
  intros H. unfold download_result, try_except_HTTPStatusError, bind at 1.
  rewrite H. reflexivity.
Qed.

(** C6, amended.  Take a project payload of the API's shape, with the list
    [translations].  Both tools look for the first media, translation by
    translation, dub by dub, media by media, whose operationType is OUTPUT
    and whose presignedURL is set; when there is one, its URL is the download
    URL and the download endpoint is not asked.  When there is none,
    [download_result] of client.py asks the download endpoint, and so does
    [download_dubbing_result] of server.py when the payload has at least one
    translation; with no translation the server tool raises "No translations
    found in the project." at once, having asked neither the endpoint nor
    for a file.  When the endpoint answers a dict without "url", both tools
    raise "No download URL available. The dubbing may not be complete."
    and no file is requested. *)
Theorem download_url_resolution
    (respond : request -> result json) (env : Env) (now : datetime)
    (project_id : string) (output_directory : option string)
    (project_data : json) (translations : list json) (s : State) :
  respond (GetProject project_id) = Ok project_data ->
  py_get project_data "translations" (JArr []) = Ok (JArr translations) ->
  well_shaped translations = true ->
  let s1 := mkState (st_fs s) (st_trace s ++ [Http (GetProject project_id)]) in
  let s2 := mkState (st_fs s)
              (st_trace s ++ [Http (GetProject project_id);
                              Http (GetDownloadUrl project_id)]) in
  match find is_output_with_url (all_medias translations) with
  | Some media =>
      resolve_url_client respond project_id s = (Ok (presigned_url media), s1)
      /\ resolve_url_server respond project_id s = (Ok (presigned_url media), s1)
  | None =>
      resolve_url_client respond project_id s
      = fallback_url respond project_id (PyExn ValueError no_url_message) s1
      /\ match translations with
         | [] =>
             download_dubbing_result respond env now project_id output_directory s
             = (Raise (PyExn SpeechlabMcpError
                  "Error downloading dubbing result: No translations found in the project."),
                s1)
         | _ :: _ =>
             resolve_url_server respond project_id s
             = fallback_url respond project_id
                 (PyExn SpeechlabMcpError no_url_message) s1
         end
      /\ forall kvs,
           respond (GetDownloadUrl project_id) = Ok (JObj kvs) ->
           match assoc "url" kvs with
           | Some url =>
               resolve_url_client respond project_id s = (Ok url, s2)
               /\ (translations <> [] ->
                   resolve_url_server respond project_id s = (Ok url, s2))
           | None =>
               download_result respond env now project_id output_directory s
               = (Raise (PyExn ValueError no_url_message), s2)
               /\ (translations <> [] ->
                   download_dubbing_result respond env now project_id
                     output_directory s
                   = (Raise (PyExn SpeechlabMcpError
                        ("Error downloading dubbing result: " ++ no_url_message)),
                      s2))
           end
  end.
Proof.
  intros Hresp Hget Hshape s1 s2.
  assert (Hclient :
            resolve_url_client respond project_id s
            = match find is_output_with_url (all_medias translations) with
              | Some media => (Ok (presigned_url media), s1)
              | None => fallback_url respond project_id
                          (PyExn ValueError no_url_message) s1
              end).
  { unfold resolve_url_client, bind, http, lift, ret. rewrite Hresp, Hget.
    simpl. rewrite (search_translations_first false translations Hshape).
    destruct (find is_output_with_url (all_medias translations)); reflexivity. }
  assert (Hserver :
            translations <> [] ->
            resolve_url_server respond project_id s
            = match find is_output_with_url (all_medias translations) with
              | Some media => (Ok (presigned_url media), s1)
              | None => fallback_url respond project_id
                          (PyExn SpeechlabMcpError no_url_message) s1
              end).
  { intros Hne. unfold resolve_url_server, bind, http, lift, ret.
    rewrite Hresp, Hget.
    destruct translations as [| t rest]; [congruence |].
    simpl truthy. cbv beta iota. simpl negb. cbv beta iota.
    change (py_iter (JArr (t :: rest))) with (Ok (t :: rest)). cbv beta iota.
    rewrite (search_translations_first true (t :: rest) Hshape).
    destruct (find is_output_with_url (all_medias (t :: rest))); reflexivity. }
  assert (Hs2 : forall tr,
             mkState (st_fs s1) (st_trace s1 ++ tr)
             = mkState (st_fs s) (st_trace s ++ Http (GetProject project_id) :: tr)).
  { intros tr. unfold s1. simpl. rewrite <- app_assoc. reflexivity. }
  destruct (find is_output_with_url (all_medias translations)) as [media |] eqn:Hfind.
  - split; [exact Hclient |]. apply Hserver.
    intros ->. discriminate.
  - split; [exact Hclient |]. split.
    + destruct translations as [| t rest].
      * apply download_dubbing_result_stops.
        unfold resolve_url_server, bind, http, lift, ret, make_error.
        rewrite Hresp, Hget. reflexivity.
      * apply Hserver. discriminate.
    + intros kvs Hurl.
      pose proof (fallback_url_run respond project_id
                    (PyExn ValueError no_url_message) s1 kvs Hurl) as Hfc.
      pose proof (fallback_url_run respond project_id
                    (PyExn SpeechlabMcpError no_url_message) s1 kvs Hurl) as Hfs.
      rewrite Hs2 in Hfc, Hfs. fold s2 in Hfc, Hfs.
      destruct (assoc "url" kvs) as [url |].
      * split; [rewrite Hclient; exact Hfc |].
        intros Hne. rewrite (Hserver Hne). exact Hfs.
      * split.
        { apply download_result_stops. rewrite Hclient. exact Hfc. }
        intros Hne. apply download_dubbing_result_stops.
        rewrite (Hserver Hne). exact Hfs.
Qed.

Lemma download_url_resolution_witness :
  resolve_url_client (project_remote two_translations JNull) "p1" desktop_state
  = (Ok (JStr "https://cdn/out.mp4"),
     mkState (st_fs desktop_state) [Http (GetProject "p1")])
  /\ resolve_url_server (project_remote two_translations JNull) "p1" desktop_state
     = (Ok (JStr "https://cdn/out.mp4"),
        mkState (st_fs desktop_state) [Http (GetProject "p1")]).
Proof.
  exact (download_url_resolution (project_remote two_translations JNull)
           (plain_env None) noon "p1" None two_translations
           [translation_entry [dub_entry [media_entry "INPUT" (JStr "https://cdn/in.mp4");
                                          media_entry "OUTPUT" JNull]];
            translation_entry [dub_entry [media_entry "INPUT" (JStr "https://cdn/in.mp4");
                                          media_entry "OUTPUT" (JStr "https://cdn/out.mp4")]]]
           desktop_state eq_refl eq_refl eq_refl).
Defined.

(* ===================================================================== *)
(** ** The completion poller: requests, sleeps and callback calls of a run *)
(* ===================================================================== *)

(** X1.  Whatever the remote answers and the callback does, a call of
    [wait_for_completion] sends at most [max_attempts] status requests, and
    none when [max_attempts] is zero or negative. *)
Theorem wait_for_completion_request_bound
    (remote : nat -> fetch_result)
    (callback : option (nat -> json -> option pyexn))
    (project_id : string) (max_attempts delay_seconds : Z) :
  fetches (snd (wait_for_completion remote callback project_id max_attempts
                  delay_seconds init))
  <= Z.to_nat max_attempts.
Proof.
  destruct (wait_for_completion_effect remote callback project_id max_attempts
              delay_seconds) as [r [t [m [Hrun [Hm _]]]]].
  rewrite Hrun. exact Hm.
Qed.

(** X2.  [wait_for_completion] sleeps between two attempts and at no other
    time.  With a non-negative [delay_seconds], a run that sent [m] status
    requests slept [m - 1] times, each time for [delay_seconds]: there is no
    sleep after the attempt that returns, nor after the last attempt of the
    budget.  With a negative [delay_seconds] the run never sleeps, and sends
    one request at most. *)
Theorem wait_for_completion_sleeps_between_attempts
    (remote : nat -> fetch_result)
    (callback : option (nat -> json -> option pyexn))
    (project_id : string) (max_attempts delay_seconds : Z) :
  let final := snd (wait_for_completion remote callback project_id
                      max_attempts delay_seconds init) in
  ((0 <= delay_seconds)%Z ->
   sleeps (trace final) = repeat delay_seconds (fetches final - 1))
  /\ ((delay_seconds < 0)%Z ->
      sleeps (trace final) = [] /\ fetches final <= 1).
Proof.
  destruct (wait_for_completion_effect remote callback project_id max_attempts
              delay_seconds) as [r [t [m [Hrun [_ [Hsl [_ [_ [_ Hneg]]]]]]]]].
  rewrite Hrun. cbn [snd trace fetches]. split.
  - intros _. exact Hsl.
  - intros Hd. pose proof (Hneg Hd) as Hm. split; [| exact Hm].
    rewrite Hsl. replace (m - 1) with 0 by lia. reflexivity.
Qed.

Lemma wait_for_completion_sleeps_between_attempts_witness :
  sleeps (trace (snd (wait_for_completion
                        (answers ["PROCESSING"; "PROCESSING"] "COMPLETE") None
                        "p1" 10 15 init)))
  = repeat 15%Z
      (fetches (snd (wait_for_completion
                       (answers ["PROCESSING"; "PROCESSING"] "COMPLETE") None
                       "p1" 10 15 init)) - 1).
Proof.
  apply (proj1 (wait_for_completion_sleeps_between_attempts
                  (answers ["PROCESSING"; "PROCESSING"] "COMPLETE") None
                  "p1" 10 15)).
  lia.
Defined.

(** X3.  The callback is called at most once per attempt, and only with the
    index of an attempt of the run and the payload that very attempt
    fetched, a payload from which a status could be derived; it is never
    called for an attempt whose status request failed. *)
Theorem callback_called_with_fetched_payload
    (remote : nat -> fetch_result)
    (callback : option (nat -> json -> option pyexn))
    (project_id : string) (max_attempts delay_seconds : Z) :
  let final := snd (wait_for_completion remote callback project_id
                      max_attempts delay_seconds init) in
  length (callback_calls (trace final)) <= fetches final
  /\ forall attempt project_data,
       In (attempt, project_data) (callback_calls (trace final)) ->
       attempt < fetches final
       /\ remote attempt = FetchOk project_data
       /\ exists st, derived_status project_data = Ok st.
Proof.
  destruct (wait_for_completion_effect remote callback project_id max_attempts
              delay_seconds) as [r [t [m [Hrun [_ [_ [Hcb [Hlen _]]]]]]]].
  rewrite Hrun. simpl. split; [exact Hlen |].
  intros attempt project_data Hin. exact (Hcb _ Hin).
Qed.

Lemma callback_called_with_fetched_payload_witness :
  0 < 2
  /\ always "PROCESSING" 0
     = FetchOk (JObj [("job", JObj [("status", JStr "PROCESSING")])])
  /\ exists st,
       derived_status (JObj [("job", JObj [("status", JStr "PROCESSING")])])
       = Ok st.
Proof.
  exact (proj2 (callback_called_with_fetched_payload (always "PROCESSING")
                  (Some quiet_callback) "p1" 2 15)
           0 (JObj [("job", JObj [("status", JStr "PROCESSING")])])
           (or_introl eq_refl)).
Defined.












(* ===================================================================== *)
(** ** utils.py: an output directory that exists already, and asking twice *)
(* ===================================================================== *)

Lemma parts_eqb_eq (l m : list string) : parts_eqb l m = true <-> l = m.
Proof.
  revert m. induction l as [| x l IH]; intros [| y m]; simpl;
    try (split; [discriminate | discriminate]); try tauto.
  rewrite andb_true_iff, String.eqb_eq, IH.
  split; [intros [-> ->]; reflexivity | intros [= -> ->]; auto].
Qed.

Lemma path_eqb_eq (p q : Path) : path_eqb p q = true <-> p = q.
Proof.
  destruct p as [a l], q as [b m]. unfold path_eqb. simpl.
  rewrite andb_true_iff, Nat.eqb_eq, parts_eqb_eq.
  split; [intros [-> ->]; reflexivity | intros [= -> ->]; auto].
Qed.

Lemma fs_add_same (fs : FS) (p : Path) (n : node) : fs_add fs p n p = Some n.
Proof.
  unfold fs_add. destruct (path_eqb p p) eqn:H; [reflexivity |].
  assert (path_eqb p p = true) by (apply path_eqb_eq; reflexivity). congruence.
Qed.

Lemma fs_add_other (fs : FS) (p q : Path) (n : node) :
  q <> p -> fs_add fs p n q = fs q.
Proof.
  intros H. unfold fs_add. destruct (path_eqb q p) eqn:E; [| reflexivity].
  apply path_eqb_eq in E. contradiction.
Qed.

(** [mkdir(parents=True, exist_ok=True)] on a path that exists, in a
    directory: nothing changes; a directory is accepted, anything else is a
    [FileExistsError]. *)
Lemma mkdir_existing (p : Path) (fs : FS) (n d : node) :
  fs p = Some n ->
  fs (parent p) = Some d ->
  is_dir d = true ->
  mkdir p true fs
  = (if is_dir n then Ok tt else Raise (PyExn FileExistsError (path_str p)), fs).
Proof.
  intros Hp Hd Hdir. unfold mkdir. rewrite mkdir_parents_unfold, rev_involutive.
  destruct p as [a l]. simpl anchor; simpl parts.
  unfold os_mkdir. rewrite Hd, Hdir. simpl. rewrite Hp. simpl.
  unfold fs_is_dir. rewrite Hp. destruct (is_dir n); reflexivity.
Qed.

(** The run of [make_output_path] on a path that exists, in a directory. *)
Lemma make_output_path_run_existing
    (env : Env) (output_directory base_path : option string) (fs : FS)
    (n d : node) :
  fs (resolve_output_path env output_directory base_path) = Some n ->
  fs (parent (resolve_output_path env output_directory base_path)) = Some d ->
  is_dir d = true ->
  make_output_path env output_directory base_path fs
  = (if negb (writable n) then
       Raise (PyExn SpeechlabMcpError
                ("Directory ("
                 ++ path_str (resolve_output_path env output_directory base_path)
                 ++ ") is not writeable"))
     else if is_dir n then Ok (resolve_output_path env output_directory base_path)
     else Raise (PyExn FileExistsError
                   (path_str (resolve_output_path env output_directory base_path))),
     fs).
Proof.
  intros Hp Hd Hdir. unfold make_output_path.
  unfold is_file_writeable, fs_exists, access_W_OK. rewrite Hp.
  destruct (writable n); simpl; [| reflexivity].
  rewrite (mkdir_existing _ fs n d Hp Hd Hdir).
  destruct (is_dir n); reflexivity.
Qed.

(** X6.  When the resolved output path exists already (inside a directory),
    [make_output_path] never changes the file system: a directory the
    process may write to is returned as it is; a path the process may not
    write to gives the 'not writeable' error; and a writable path that is
    not a directory passes the writability check and then fails in [mkdir]
    with a [FileExistsError], which is no [SpeechlabMcpError]. *)
Theorem make_output_path_existing
    (env : Env) (output_directory base_path : option string) (fs : FS)
    (n d : node) :
  let path := resolve_output_path env output_directory base_path in
  fs path = Some n ->
  fs (parent path) = Some d ->
  is_dir d = true ->
  snd (make_output_path env output_directory base_path fs) = fs
  /\ match fst (make_output_path env output_directory base_path fs) with
     | Ok q => q = path /\ writable n = true /\ is_dir n = true
     | Raise e =>
         (writable n = false
          /\ e = PyExn SpeechlabMcpError
                   ("Directory (" ++ path_str path ++ ") is not writeable"))
         \/ (writable n = true /\ is_dir n = false
             /\ exn_cls e = FileExistsError)
     end.
Proof.
  intros path Hp Hd Hdir.
  rewrite (make_output_path_run_existing env output_directory base_path fs n d
             Hp Hd Hdir).
  fold path. split; [reflexivity |].
  destruct (writable n); simpl; [| left; split; reflexivity].
  destruct (is_dir n); simpl; [repeat split | right; repeat split].
Qed.

Lemma make_output_path_existing_witness :
  snd (make_output_path (plain_env None) (Some "/data/report.txt") None
         (fs_of [("/data/report.txt", file_rw); ("/data", dir_rw); ("/", dir_rw)]))
  = fs_of [("/data/report.txt", file_rw); ("/data", dir_rw); ("/", dir_rw)].
Proof.
  exact (proj1 (make_output_path_existing (plain_env None)
                  (Some "/data/report.txt") None
                  (fs_of [("/data/report.txt", file_rw); ("/data", dir_rw);
                          ("/", dir_rw)])
                  file_rw dir_rw eq_refl eq_refl eq_refl)).
Defined.

(** A regular file where the directory should be: the check passes, [mkdir]
    fails. *)
Example output_path_is_a_file :
  match fst (make_output_path (plain_env None) (Some "/data/report.txt") None
               (fs_of [("/data/report.txt", file_rw); ("/data", dir_rw);
                       ("/", dir_rw)])) with
  | Raise e => exn_cls e = FileExistsError
  | Ok _ => False
  end.
Proof. reflexivity. Qed.

(** X7.  Asking twice is harmless: after [make_output_path] has returned a
    directory, a second call with the same arguments returns the same
    directory and changes nothing more. *)
Theorem make_output_path_twice
    (env : Env) (output_directory base_path : option string) (fs fs' : FS)
    (q : Path) :
  let path := resolve_output_path env output_directory base_path in
  (fs path <> None ->
   exists d, fs (parent path) = Some d /\ is_dir d = true) ->
  make_output_path env output_directory base_path fs = (Ok q, fs') ->
  make_output_path env output_directory base_path fs' = (Ok q, fs').
Proof.
  intros path Hcons Hrun.
  destruct (fs path) as [n |] eqn:Hp.
  - destruct Hcons as [d [Hd Hdir]]; [discriminate |].
    pose proof (make_output_path_run_existing env output_directory base_path
                  fs n d Hp Hd Hdir) as H1.
    fold path in H1. rewrite H1 in Hrun.
    destruct (writable n) eqn:Hw; simpl in Hrun; [| discriminate].
    destruct (is_dir n) eqn:Hn; [| discriminate].
    injection Hrun as <- <-.
    rewrite H1, ?Hw, ?Hn. reflexivity.
  - unfold make_output_path in Hrun. fold path in Hrun.
    unfold is_file_writeable, fs_exists, access_W_OK in Hrun.
    rewrite Hp in Hrun.
    destruct (fs (parent path)) as [d |] eqn:Hd; simpl in Hrun; [| discriminate].
    destruct (writable d) eqn:Hw; simpl in Hrun; [| discriminate].
    rewrite (mkdir_with_parent path fs d Hp Hd), Hw in Hrun.
    destruct (is_dir d) eqn:Hdir; simpl in Hrun; [| discriminate].
    injection Hrun as <- <-.
    assert (Hne : parent path <> path) by (intros E; rewrite E in Hd; congruence).
    pose proof (make_output_path_run_existing env output_directory base_path
                  (fs_add fs path (mkNode true true)) (mkNode true true) d) as H2.
    fold path in H2. rewrite H2.
    + reflexivity.
    + apply fs_add_same.
    + rewrite fs_add_other; assumption.
    + exact Hdir.
Qed.

Lemma make_output_path_twice_witness :
  make_output_path (plain_env None) (Some "/data/out") None
    (snd (make_output_path (plain_env None) (Some "/data/out") None
            (fs_of [("/", dir_rw); ("/data", dir_rw)])))
  = (Ok (path_of_string "/data/out"),
     snd (make_output_path (plain_env None) (Some "/data/out") None
            (fs_of [("/", dir_rw); ("/data", dir_rw)]))).
Proof.
  apply (make_output_path_twice (plain_env None) (Some "/data/out") None
           (fs_of [("/", dir_rw); ("/data", dir_rw)])).
  - intros H. exfalso. apply H. reflexivity.
  - reflexivity.
Defined.

(* ===================================================================== *)
(** ** utils.py: names without an extension, names without a slash *)
(* ===================================================================== *)

Import Text.

Lemma rfind_dot_no_dot (s : string) (pos : nat) (found : option nat) :
  no_char "."%char s = true -> rfind_dot s pos found = found.
Proof.
  revert pos found. induction s as [| c s IH]; intros pos found H; simpl in *.
  - reflexivity.
  - apply andb_true_iff in H. destruct H as [Hc Hs].
    apply negb_true_iff in Hc. rewrite Hc. apply IH. exact Hs.
Qed.

Lemma suffix_without_dot (p : Path) (stem : string) :
  Os.name p = stem \/ Os.name p = String "."%char stem ->
  no_char "."%char stem = true ->
  suffix p = "".
Proof.
  intros [Hn | Hn] Hs; unfold suffix; rewrite Hn; simpl.
  - rewrite (rfind_dot_no_dot stem 0 None Hs). reflexivity.
  - rewrite (rfind_dot_no_dot stem 1 (Some 0) Hs). reflexivity.
Qed.

(** X8.  With the media check on, [handle_input_file] never accepts a file
    whose name has no dot, nor a file whose only dot is the first character
    of its Os.name (".mp4"): such a name has no suffix, so no allow-list entry
    can match, wherever the file is and whatever it contains. *)
Theorem handle_input_file_requires_extension
    (env : Env) (fs : FS) (file_path stem : string) :
  Os.name (path_of_string file_path) = stem
  \/ Os.name (path_of_string file_path) = String "."%char stem ->
  no_char "."%char stem = true ->
  exists msg,
    handle_input_file env fs file_path true = Raise (PyExn SpeechlabMcpError msg).
Proof.
  intros Hname Hstem.
  assert (Hcheck : check_media_file (path_of_string file_path) = false).
  { unfold check_media_file.
    rewrite (suffix_without_dot _ stem Hname Hstem). reflexivity. }
  unfold handle_input_file, make_error. rewrite Hcheck. simpl.
  destruct (negb (isabs file_path) && negb (nonempty (base_path env)));
    [eexists; reflexivity |].
  destruct (negb (fs_exists fs (path_of_string file_path)));
    [eexists; reflexivity |].
  destruct (negb (fs_is_file fs (path_of_string file_path)));
    eexists; reflexivity.
Qed.

Lemma handle_input_file_requires_extension_witness :
  exists msg,
    handle_input_file (plain_env None) (fs_of [("/media/.mp4", file_rw)])
      "/media/.mp4" true
    = Raise (PyExn SpeechlabMcpError msg).
Proof.
  apply (handle_input_file_requires_extension (plain_env None)
           (fs_of [("/media/.mp4", file_rw)]) "/media/.mp4" "mp4").
  - right. reflexivity.
  - reflexivity.
Defined.

Lemma no_char_append (c : ascii) (s t : string) :
  no_char c (s ++ t) = no_char c s && no_char c t.
Proof.
  induction s as [| x s IH]; simpl; [reflexivity |].
  rewrite IH, andb_assoc. reflexivity.
Qed.

Lemma no_char_substring (c : ascii) (s : string) :
  no_char c s = true -> forall n m, no_char c (substring n m s) = true.
Proof.
  induction s as [| x s IH]; intros H n m; simpl in *.
  - destruct n, m; reflexivity.
  - apply andb_true_iff in H. destruct H as [Hx Hs].
    destruct n as [| n].
    + destruct m as [| m]; simpl; [reflexivity |].
      rewrite Hx. simpl. apply IH. exact Hs.
    + apply IH. exact Hs.
Qed.

Lemma no_slash_replace_spaces (s : string) :
  no_char slash s = true -> no_char slash (replace_spaces s) = true.
Proof.
  induction s as [| x s IH]; intros H; simpl in *; [reflexivity |].
  apply andb_true_iff in H. destruct H as [Hx Hs].
  rewrite (IH Hs), andb_true_r.
  destruct (Ascii.eqb x " "%char); [reflexivity | exact Hx].
Qed.

Lemma no_slash_digit (n : nat) : no_char slash (digit n) = true.
Proof.
  unfold digit.
  assert (H : n mod 10 < 10) by (apply Nat.mod_upper_bound; lia).
  remember (n mod 10) as k eqn:Hk. clear Hk.
  destruct k as [| [| [| [| [| [| [| [| [| [| k]]]]]]]]]];
    try reflexivity; lia.
Qed.

Lemma no_slash_strftime (now : datetime) :
  no_char slash (strftime_date_time now) = true.
Proof.
  unfold strftime_date_time, four_digits, two_digits.
  rewrite !no_char_append, !no_slash_digit. reflexivity.
Qed.

Lemma length_append (s t : string) :
  String.length (s ++ t) = String.length s + String.length t.
Proof. induction s as [| x s IH]; simpl; congruence. Qed.

Lemma split_slash_no_slash (s cur : string) :
  no_char slash s = true -> split_slash s cur = [cur ++ s].
Proof.
  revert cur. induction s as [| x s IH]; intros cur H; simpl in *.
  - f_equal. induction cur as [| y cur IHc]; simpl; congruence.
  - apply andb_true_iff in H. destruct H as [Hx Hs].
    apply negb_true_iff in Hx. rewrite Hx, (IH _ Hs).
    f_equal. induction cur as [| y cur IHc]; simpl; congruence.
Qed.

(** A str without a slash, of two characters or more, is a path of one
    part. *)
Lemma path_of_string_single (s : string) :
  no_char slash s = true ->
  2 <= String.length s ->
  path_of_string s = mkPath 0 [s].
Proof.
  intros Hs Hlen. unfold path_of_string.
  rewrite (split_slash_no_slash s "" Hs). simpl.
  assert (Hlead : leading_slashes s = 0).
  { destruct s as [| x s]; simpl in *; [reflexivity |].
    apply andb_true_iff in Hs. destruct Hs as [Hx _].
    apply negb_true_iff in Hx. rewrite Hx. reflexivity. }
  rewrite Hlead.
  destruct s as [| x [| y s]]; simpl in Hlen; try lia.
  assert (E1 : String.eqb (String x (String y s)) "" = false) by reflexivity.
  assert (E2 : String.eqb (String x (String y s)) "." = false).
  { cbn. destruct (Ascii.eqb x "."%char); reflexivity. }
  rewrite E1, E2. reflexivity.
Qed.

(** X9.  When the tool tag, the text and the extension hold no slash, the
    file [make_output_file] names lies directly in the output path and its
    name is the generated one; the part of the name taken from the text has
    at most five characters unless the full identifier is asked for. *)
Theorem make_output_file_in_output_path
    (tool text extension : string) (output_path : Path) (full_id : bool)
    (now : datetime) :
  no_char slash tool = true ->
  no_char slash text = true ->
  no_char slash extension = true ->
  parent (make_output_file tool text output_path extension full_id now)
  = output_path
  /\ Os.name (make_output_file tool text output_path extension full_id now)
     = output_file_name tool text extension full_id now
  /\ (full_id = false ->
      String.length (output_file_name tool text extension full_id now)
      <= String.length tool + String.length extension + 23).
Proof.
  intros Ht Hx He.
  assert (Hid : forall id, no_char slash id = true ->
                  path_of_string (tool ++ "_" ++ replace_spaces id ++ "_"
                                  ++ strftime_date_time now ++ "." ++ extension)
                  = mkPath 0 [tool ++ "_" ++ replace_spaces id ++ "_"
                              ++ strftime_date_time now ++ "." ++ extension]).
  { intros id Hidn. apply path_of_string_single.
    - rewrite !no_char_append, Ht, (no_slash_replace_spaces id Hidn),
        no_slash_strftime, He. reflexivity.
    - rewrite !length_append, strftime_date_time_length. simpl. lia. }
  assert (Hpath :
            make_output_file tool text output_path extension full_id now
            = mkPath (anchor output_path)
                (parts output_path
                 ++ [output_file_name tool text extension full_id now])).
  { unfold make_output_file, output_file_name.
    rewrite Hid; [reflexivity |].
    destruct full_id; [exact Hx | apply no_char_substring; exact Hx]. }
  rewrite Hpath. unfold parent, Os.name. simpl.
  rewrite removelast_last, last_last.
  split; [destruct output_path; reflexivity |].
  split; [reflexivity |].
  intros ->. unfold output_file_name.
  rewrite !length_append, replace_spaces_length, strftime_date_time_length.
  simpl.
  assert (String.length (substring 0 5 text) <= 5).
  { clear. generalize 5 as m. induction text as [| c s IH]; intros m.
    - destruct m; simpl; lia.
    - destruct m as [| m]; simpl; [lia |]. specialize (IH m). lia. }
  lia.
Qed.

Lemma make_output_file_in_output_path_witness :
  parent (make_output_file "dub" "my holiday film"
            (path_of_string "/home/u/Desktop") "mp4" false noon)
  = path_of_string "/home/u/Desktop"
  /\ Os.name (make_output_file "dub" "my holiday film"
             (path_of_string "/home/u/Desktop") "mp4" false noon)
     = output_file_name "dub" "my holiday film" "mp4" false noon
  /\ (false = false ->
      String.length (output_file_name "dub" "my holiday film" "mp4" false noon)
      <= String.length "dub" + String.length "mp4" + 23).
Proof.
  apply (make_output_file_in_output_path "dub" "my holiday film" "mp4"
           (path_of_string "/home/u/Desktop") false noon);
    reflexivity.
Defined.

(** A slash in the text moves the file into a directory of its own. *)
Example slash_in_text_makes_a_directory :
  make_output_file "dub" "a/b" (path_of_string "/out") "mp4" false noon
  = mkPath 1 ["out"; "dub_a"; "b_20240307_120000.mp4"].
Proof. reflexivity. Qed.

(* ===================================================================== *)
(** ** server.py: where the downloaded file is written *)
(* ===================================================================== *)

Lemma make_output_path_returns_resolved
    (env : Env) (output_directory base_path : option string) (fs fs' : FS)
    (q : Path) :
  make_output_path env output_directory base_path fs = (Ok q, fs') ->
  q = resolve_output_path env output_directory base_path.
Proof.
  unfold make_output_path.
  destruct (negb (is_file_writeable fs _)); [discriminate |].
  destruct (mkdir _ true fs) as [[[] | e] fs1]; [| discriminate].
  intros [= <- _]. reflexivity.
Qed.

(** The name of the file [download_dubbing_result] writes: the text handed
    to [make_output_file] is "project_" followed by the project id, of which
    only the first five characters, "proje", are kept. *)
Lemma server_download_name (project_id : string) (now : datetime) :
  path_of_string (output_file_name "dub" ("project_" ++ project_id) "mp4" false now)
  = mkPath 0 ["dub_proje_" ++ strftime_date_time now ++ ".mp4"].
Proof.
  change (output_file_name "dub" ("project_" ++ project_id) "mp4" false now)
    with ("dub_proje_" ++ strftime_date_time now ++ ".mp4").
  apply path_of_string_single.
  - rewrite !no_char_append, no_slash_strftime. reflexivity.
  - rewrite !length_append, strftime_date_time_length. simpl. lia.
Qed.

(** X10.  The file [download_dubbing_result] saves is named after the tool
    and the time only, "dub_proje_<timestamp>.mp4": the project id does not
    appear in it, so the results of two projects downloaded to the same
    directory within the same second get the same path.  The text the tool
    returns names that path: the output path joined with the path
    [make_output_file] returned, which has the output path in it already. *)
Theorem download_dubbing_result_file_ignores_project
    (respond : request -> result json) (env : Env) (now : datetime)
    (project_id : string) (output_directory : option string) (s : State)
    (text : string) :
  fst (download_dubbing_result respond env now project_id output_directory s)
  = Ok text ->
  let out := resolve_output_path env output_directory (base_path env) in
  let file := mkPath 0 ["dub_proje_" ++ strftime_date_time now ++ ".mp4"] in
  text = "Dubbing result downloaded successfully." ++ nl ++ "File saved at: "
         ++ path_str (path_join out (path_join out file))
  /\ In (WriteFile (path_join out (path_join out file)))
        (st_trace (snd (download_dubbing_result respond env now project_id
                          output_directory s))).
Proof.
  intros Hok out file.
  pose proof (tool_handlers_state "Error downloading dubbing result: "
                (download_url <- resolve_url_server respond project_id ;;
                 _ <- http respond (GetUrl download_url) ;;
                 output_path <- on_fs (make_output_path env output_directory
                                         (base_path env)) ;;
                 write_file
                   (path_join output_path
                      (make_output_file "dub" ("project_" ++ project_id)
                         output_path "mp4" false now)) ;;
                 ret ("Dubbing result downloaded successfully." ++ nl
                      ++ "File saved at: "
                      ++ path_str
                           (path_join output_path
                              (make_output_file "dub" ("project_" ++ project_id)
                                 output_path "mp4" false now)))) s) as Hstate.
  unfold download_dubbing_result in *.
  apply tool_handlers_ok in Hok. rewrite Hstate. clear Hstate.
  revert Hok. unfold bind.
  destruct (resolve_url_server respond project_id s) as [[url | e] s1];
    [| discriminate].
  unfold http. destruct (respond (GetUrl url)) as [content | e]; [| discriminate].
  unfold on_fs. simpl st_fs.
  destruct (make_output_path env output_directory (base_path env) (st_fs s1))
    as [[q | e] fs'] eqn:Hmk; [| discriminate].
  apply make_output_path_returns_resolved in Hmk. fold out in Hmk. subst q.
  unfold make_output_file. rewrite server_download_name. fold file.
  unfold write_file, ret. simpl st_fs.
  destruct (open_wb fs' (path_join out (path_join out file))) as [p | e];
    [| discriminate].
  simpl. intros [= <-]. split; [reflexivity |].
  apply in_or_app. right. left. reflexivity.
Qed.

Lemma download_dubbing_result_file_ignores_project_witness :
  "Dubbing result downloaded successfully." ++ nl ++ "File saved at: "
  ++ "/home/u/Desktop/dub_proje_20240307_120000.mp4"
  = "Dubbing result downloaded successfully." ++ nl ++ "File saved at: "
    ++ path_str
         (path_join (resolve_output_path (plain_env None) None None)
            (path_join (resolve_output_path (plain_env None) None None)
               (mkPath 0 ["dub_proje_" ++ strftime_date_time noon ++ ".mp4"]))).
Proof.
  exact (proj1 (download_dubbing_result_file_ignores_project
                  (project_remote two_translations JNull) (plain_env None) noon
                  "p1" None desktop_state _ eq_refl)).
Defined.

(** [mkdir] touches no path that has more parts than the one it is asked to
    make. *)
Lemma os_mkdir_frame (p q : Path) (fs : FS) :
  q <> p -> snd (os_mkdir p fs) q = fs q.
Proof.
  intros Hne. unfold os_mkdir.
  destruct (fs (parent p)) as [d |]; [| reflexivity].
  destruct (negb (is_dir d)); [reflexivity |].
  destruct (fs p); [reflexivity |].
  destruct (writable d); [| reflexivity].
  simpl. apply fs_add_other. exact Hne.
Qed.

Lemma mkdir_single_frame (p q : Path) (exist_ok : bool) (fs : FS) :
  q <> p -> snd (mkdir_single p exist_ok fs) q = fs q.
Proof.
  intros Hne. unfold mkdir_single.
  pose proof (os_mkdir_frame p q fs Hne) as H.
  destruct (os_mkdir p fs) as [[[] | e] fs1]; simpl in *; [exact H |].
  destruct (is_FileNotFoundError e); [exact H |].
  destruct (exist_ok && fs_is_dir fs1 p); exact H.
Qed.

Lemma mkdir_parents_frame (a : nat) (rp : list string) :
  forall (exist_ok : bool) (fs : FS) (q : Path),
    length rp < length (parts q) ->
    snd (mkdir_parents a rp exist_ok fs) q = fs q.
Proof.
  induction rp as [| x up IH]; intros exist_ok fs q Hlen;
    rewrite mkdir_parents_unfold.
  - assert (Hne : q <> mkPath a (rev [])).
    { intros ->. simpl in Hlen. lia. }
    pose proof (os_mkdir_frame _ q fs Hne) as H.
    destruct (os_mkdir (mkPath a (rev [])) fs) as [[[] | e] fs1]; simpl in *;
      [exact H |].
    destruct (is_FileNotFoundError e); [exact H |].
    destruct (exist_ok && fs_is_dir fs1 _); exact H.
  - assert (Hne : q <> mkPath a (rev (x :: up))).
    { intros E. rewrite E in Hlen. cbn [parts] in Hlen.
      rewrite length_rev in Hlen. lia. }
    pose proof (os_mkdir_frame _ q fs Hne) as H.
    destruct (os_mkdir (mkPath a (rev (x :: up))) fs) as [[[] | e] fs1];
      simpl snd in *; [exact H |].
    destruct (is_FileNotFoundError e).
    + assert (Hup : snd (mkdir_parents a up true fs1) q = fs1 q).
      { apply IH. simpl in Hlen. lia. }
      destruct (mkdir_parents a up true fs1) as [[[] | e1] fs2]; simpl snd in *.
      * change (rev up ++ [x])%list with (rev (x :: up)).
        rewrite (mkdir_single_frame _ q exist_ok fs2 Hne). congruence.
      * congruence.
    + destruct (exist_ok && fs_is_dir fs1 _); exact H.
Qed.

Lemma make_output_path_frame
    (env : Env) (output_directory base_path : option string) (fs : FS) (q : Path) :
  length (parts (resolve_output_path env output_directory base_path))
  < length (parts q) ->
  snd (make_output_path env output_directory base_path fs) q = fs q.
Proof.
  intros Hlen. unfold make_output_path.
  destruct (negb (is_file_writeable fs _)); [reflexivity |].
  pose proof (mkdir_parents_frame
                (anchor (resolve_output_path env output_directory base_path))
                (rev (parts (resolve_output_path env output_directory base_path)))
                true fs q) as H.
  rewrite length_rev in H. specialize (H Hlen). unfold mkdir.
  destruct (mkdir_parents _ _ true fs) as [[[] | e] fs1]; exact H.
Qed.

(** A path without ".." parts is walked as it is written. *)
Lemma os_walk_no_dotdot (fs : FS) (a : nat) (todo : list string) :
  forall seen,
    forallb (fun x => negb (String.eqb x "..")) todo = true ->
    os_walk fs a seen todo = Ok (mkPath a (rev seen ++ todo)).
Proof.
  induction todo as [| x rest IH]; intros seen Hall; simpl.
  - rewrite app_nil_r. reflexivity.
  - simpl in Hall. apply andb_true_iff in Hall. destruct Hall as [Hx Hrest].
    rewrite Hx, (IH (x :: seen) Hrest). simpl. rewrite <- app_assoc.
    reflexivity.
Qed.

Lemma os_resolve_no_dotdot (fs : FS) (p : Path) :
  no_dotdot p = true -> os_resolve fs p = Ok p.
Proof.
  intros H. unfold os_resolve. rewrite (os_walk_no_dotdot fs _ _ [] H).
  destruct p; reflexivity.
Qed.

(** Opening for writing a path without ".." parts fails when the directory
    it lies in does not exist. *)
Lemma open_wb_missing_directory (fs : FS) (target : Path) :
  no_dotdot target = true ->
  fs_is_dir fs (parent target) = false ->
  exists e, open_wb fs target = Raise e.
Proof.
  intros Hdots Hdir. unfold open_wb.
  rewrite (os_resolve_no_dotdot fs target Hdots).
  unfold fs_is_dir in Hdir.
  destruct (fs (parent target)) as [d |]; [| eexists; reflexivity].
  rewrite Hdir. eexists. reflexivity.
Qed.

Lemma path_join_twice_relative (out : Path) (file_name : string) :
  anchor out = 0 ->
  parent (path_join out (path_join out (mkPath 0 [file_name])))
  = mkPath 0 (parts out ++ parts out).
Proof.
  destruct out as [a l]. simpl. intros ->.
  unfold path_join, parent. simpl.
  rewrite app_assoc, removelast_last. reflexivity.
Qed.

(** X11.  With an output directory that resolves to a relative path without
    ".." parts, the file [download_dubbing_result] tries to write lies in
    that directory taken twice (out/out/dub_proje_....mp4), because the path
    returned by [make_output_file] is joined to the output path again.
    Unless that nested directory exists beforehand the tool never returns a
    result: it raises, and no file is written.  (With ".." parts the path
    taken twice may lead back into the directory just made, as
    "../x/../x" does.) *)
Theorem download_dubbing_result_relative_directory
    (respond : request -> result json) (env : Env) (now : datetime)
    (project_id : string) (output_directory : option string) (s : State) :
  let out := resolve_output_path env output_directory (base_path env) in
  anchor out = 0 ->
  parts out <> [] ->
  no_dotdot out = true ->
  fs_is_dir (st_fs s) (mkPath 0 (parts out ++ parts out)) = false ->
  (exists e,
     fst (download_dubbing_result respond env now project_id output_directory s)
     = Raise e)
  /\ forall target,
       In (WriteFile target)
          (st_trace (snd (download_dubbing_result respond env now project_id
                            output_directory s))) ->
       In (WriteFile target) (st_trace s).
Proof.
  intros out Hrel Hparts Hdots Hnested.
  unfold download_dubbing_result.
  match goal with
  | |- context [tool_handlers ?c ?b s] => set (body := b)
  end.
  assert (Hbody :
            (exists e, fst (body s) = Raise e)
            /\ forall target,
                 In (WriteFile target) (st_trace (snd (body s))) ->
                 In (WriteFile target) (st_trace s)).
  { unfold body, bind.
    assert (Hres : exists r s1,
               resolve_url_server respond project_id s = (r, s1)
               /\ st_fs s1 = st_fs s
               /\ forall target, In (WriteFile target) (st_trace s1) ->
                                 In (WriteFile target) (st_trace s)).
    { unfold resolve_url_server, fallback_url, bind, http, lift, ret, raise,
        make_error.
      destruct (respond (GetProject project_id)) as [d | e]; simpl.
      2:{ eexists; eexists; split; [reflexivity |]. split; [reflexivity |].
          intros target H. apply in_app_or in H.
          destruct H as [H | [H | []]]; [exact H | discriminate]. }
      destruct (py_get d "translations" (JArr [])) as [ts | e]; simpl.
      2:{ eexists; eexists; split; [reflexivity |]. split; [reflexivity |].
          intros target H. apply in_app_or in H.
          destruct H as [H | [H | []]]; [exact H | discriminate]. }
      destruct (negb (truthy ts)); simpl.
      { eexists; eexists; split; [reflexivity |]. split; [reflexivity |].
        intros target H. apply in_app_or in H.
        destruct H as [H | [H | []]]; [exact H | discriminate]. }
      destruct (py_iter ts) as [items | e]; simpl.
      2:{ eexists; eexists; split; [reflexivity |]. split; [reflexivity |].
          intros target H. apply in_app_or in H.
          destruct H as [H | [H | []]]; [exact H | discriminate]. }
      destruct (search_translations true items) as [[url |] | e]; simpl.
      - eexists; eexists; split; [reflexivity |]. split; [reflexivity |].
        intros target H. apply in_app_or in H.
        destruct H as [H | [H | []]]; [exact H | discriminate].
      - destruct (respond (GetDownloadUrl project_id)) as [u | e]; simpl.
        + destruct (py_contains "url" u) as [b | e]; simpl;
            [destruct (negb b); simpl |];
            eexists; eexists; (split; [reflexivity |]); (split; [reflexivity |]);
            intros target H; apply in_app_or in H;
            destruct H as [H | [H | []]]; try discriminate;
            apply in_app_or in H;
            destruct H as [H | [H | []]]; try discriminate; exact H.
        + eexists; eexists; split; [reflexivity |]. split; [reflexivity |].
          intros target H. apply in_app_or in H.
          destruct H as [H | [H | []]]; [| discriminate].
          apply in_app_or in H.
          destruct H as [H | [H | []]]; [exact H | discriminate].
      - eexists; eexists; split; [reflexivity |]. split; [reflexivity |].
        intros target H. apply in_app_or in H.
        destruct H as [H | [H | []]]; [exact H | discriminate]. }
    destruct Hres as [r [s1 [Hres [Hfs Htr]]]]. rewrite Hres.
    destruct r as [url | e]; [| split; [eexists; reflexivity | exact Htr]].
    unfold http. cbn [st_fs st_trace].
    assert (Htr1 : forall target,
               In (WriteFile target) (st_trace s1 ++ [Http (GetUrl url)]) ->
               In (WriteFile target) (st_trace s)).
    { intros target H. apply in_app_or in H.
      destruct H as [H | [H | []]]; [auto | discriminate]. }
    destruct (respond (GetUrl url)) as [content | e];
      [| split; [eexists; reflexivity | exact Htr1]].
    unfold on_fs. simpl st_fs.
    pose proof (make_output_path_frame env output_directory (base_path env)
                  (st_fs s1) (mkPath 0 (parts out ++ parts out))) as Hframe.
    destruct (make_output_path env output_directory (base_path env) (st_fs s1))
      as [[q | e] fs'] eqn:Hmk; cbv beta iota;
      [| split; [eexists; reflexivity | exact Htr1]].
    apply make_output_path_returns_resolved in Hmk. fold out in Hmk. subst q.
    unfold make_output_file. rewrite server_download_name.
    assert (Htarget :
              parent (path_join out
                        (path_join out
                           (mkPath 0 ["dub_proje_" ++ strftime_date_time now
                                      ++ ".mp4"])))
              = mkPath 0 (parts out ++ parts out)).
    { apply path_join_twice_relative. exact Hrel. }
    assert (Hnd : fs_is_dir fs' (mkPath 0 (parts out ++ parts out)) = false).
    { unfold fs_is_dir. simpl snd in Hframe. rewrite Hframe.
      - rewrite Hfs. exact Hnested.
      - fold out. simpl. rewrite length_app.
        destruct (parts out); [congruence | simpl; lia]. }
    rewrite <- Htarget in Hnd.
    destruct (open_wb_missing_directory fs'
                (path_join out
                   (path_join out
                      (mkPath 0 ["dub_proje_" ++ strftime_date_time now
                                 ++ ".mp4"])))) as [e He]; [| exact Hnd |].
    { unfold no_dotdot in *. destruct out as [a l]. simpl in Hrel. subst a.
      unfold path_join. cbn [anchor parts] in *.
      rewrite !forallb_app, Hdots. reflexivity. }
    unfold write_file. simpl st_fs. rewrite He.
    split; [eexists; reflexivity | exact Htr1]. }
  destruct Hbody as [[e He] Hw]. rewrite tool_handlers_state.
  split; [| exact Hw].
  unfold tool_handlers. destruct (body s) as [[a | e0] s'] eqn:Hb;
    simpl in He; [discriminate |].
  destruct (exn_cls e0); simpl; try (eexists; reflexivity);
    destruct (is_Exception e0); eexists; reflexivity.
Qed.

Lemma download_dubbing_result_relative_directory_witness :
  (exists e,
     fst (download_dubbing_result (project_remote two_translations JNull)
            (plain_env None) noon "p1" (Some "out")
            (mkState (fs_of [(".", dir_rw)]) []))
     = Raise e)
  /\ forall target,
       In (WriteFile target)
          (st_trace (snd (download_dubbing_result
                            (project_remote two_translations JNull)
                            (plain_env None) noon "p1" (Some "out")
                            (mkState (fs_of [(".", dir_rw)]) [])))) ->
       In (WriteFile target) [].
Proof.
  apply (download_dubbing_result_relative_directory
           (project_remote two_translations JNull) (plain_env None) noon "p1"
           (Some "out") (mkState (fs_of [(".", dir_rw)]) [])).
  - reflexivity.
  - discriminate.
  - reflexivity.
  - reflexivity.
Defined.

Example relative_directory_is_made_then_missed :
  snd (download_dubbing_result (project_remote two_translations JNull)
         (plain_env None) noon "p1" (Some "out")
         (mkState (fs_of [(".", dir_rw)]) []))
  = mkState (fs_add (fs_of [(".", dir_rw)]) (path_of_string "out") (mkNode true true))
      [Http (GetProject "p1"); Http (GetUrl (JStr "https://cdn/out.mp4"))].
Proof. reflexivity. Qed.

(** With the output directory "../x" the path taken twice, "../x/../x",
    leads back into the directory just made: the file is written there, and
    the text returned names the path as the code built it. *)
Example parent_relative_directory_is_written :
  let final :=
    download_dubbing_result (project_remote two_translations JNull)
      (plain_env None) noon "p1" (Some "../x")
      (mkState (fs_of [(".", dir_rw); ("..", dir_rw)]) []) in
  fst final
  = Ok ("Dubbing result downloaded successfully." ++ nl ++ "File saved at: "
        ++ "../x/../x/dub_proje_20240307_120000.mp4")
  /\ st_trace (snd final)
     = [Http (GetProject "p1"); Http (GetUrl (JStr "https://cdn/out.mp4"));
        WriteFile (path_of_string "../x/../x/dub_proje_20240307_120000.mp4")]
  /\ fs_is_file (st_fs (snd final))
       (path_of_string "../x/dub_proje_20240307_120000.mp4") = true.
Proof. repeat split. Qed.

(* ===================================================================== *)
(** ** server.py: uploading while creating; the URL found in a payload *)
(* ===================================================================== *)

(** X12.  [create_project_and_dub] uploads only into the project it has just
    created: an upload request is sent only when a source file was given,
    the create request was answered, the file passed [handle_input_file]
    with the media check on, and the answer holds an "id"; the upload then
    goes to that id with that file. *)
Theorem create_project_and_dub_upload_follows_create
    (respond : request -> result json) (env : Env) (now : datetime)
    (name source_language target_language : string)
    (source_file : option string) (s : State)
    (project_id : json) (file : Path) :
  In (Http (PostUpload project_id file))
     (st_trace (snd (create_project_and_dub respond env now name source_language
                       target_language source_file s))) ->
  ~ In (Http (PostUpload project_id file)) (st_trace s) ->
  exists f project_data,
    source_file = Some f
    /\ respond (PostCreateProject
                  (create_body now "mcp_" name source_language target_language))
       = Ok project_data
    /\ handle_input_file env (st_fs s) f true = Ok file
    /\ py_item project_data "id" = Ok project_id.
Proof.
  unfold create_project_and_dub. rewrite tool_handlers_state.
  unfold bind, http, when, read_fs, lift, ret. simpl.
  intros Hin Hnot.
  destruct (respond (PostCreateProject
                       (create_body now "mcp_" name source_language
                          target_language))) as [data | e] eqn:Hresp;
    simpl in Hin.
  2:{ exfalso. apply in_app_or in Hin.
      destruct Hin as [H | [H | []]]; [auto | discriminate]. }
  destruct source_file as [f |]; simpl in Hin.
  2:{ exfalso.
      destruct (dub_project_of_response now data None); simpl in Hin;
        apply in_app_or in Hin;
        destruct Hin as [H | [H | []]]; auto; discriminate. }
  destruct (negb (String.eqb f "")) eqn:Hf; simpl in Hin.
  2:{ exfalso.
      destruct (dub_project_of_response now data (Some f)); simpl in Hin;
        apply in_app_or in Hin;
        destruct Hin as [H | [H | []]]; auto; discriminate. }
  destruct (handle_input_file env (st_fs s) f true) as [fp | e] eqn:Hfile;
    simpl in Hin.
  2:{ exfalso. apply in_app_or in Hin.
      destruct Hin as [H | [H | []]]; [auto | discriminate]. }
  destruct (py_item data "id") as [pid | e] eqn:Hid; simpl in Hin.
  2:{ exfalso. apply in_app_or in Hin.
      destruct Hin as [H | [H | []]]; [auto | discriminate]. }
  assert (Hup : project_id = pid /\ file = fp).
  { destruct (respond (PostUpload pid fp)); simpl in Hin;
      [destruct (dub_project_of_response now data (Some f)); simpl in Hin |];
      apply in_app_or in Hin;
      destruct Hin as [H | [H | []]];
      try (apply in_app_or in H; destruct H as [H | [H | []]]);
      try contradiction; try discriminate;
      injection H as <- <-; auto. }
  destruct Hup as [-> ->].
  exists f, data. repeat split; auto.
Qed.

Lemma create_project_and_dub_upload_follows_create_witness :
  exists f project_data,
    Some "/media/talk.mp4" = Some f
    /\ echo_remote (PostCreateProject (create_body noon "mcp_" "demo" "en" "fr"))
       = Ok project_data
    /\ handle_input_file (plain_env None)
         (fs_of [("/media/talk.mp4", file_rw)]) f true
       = Ok (path_of_string "/media/talk.mp4")
    /\ py_item project_data "id" = Ok (JStr "p1").
Proof.
  apply (create_project_and_dub_upload_follows_create echo_remote
           (plain_env None) noon "demo" "en" "fr" (Some "/media/talk.mp4")
           (mkState (fs_of [("/media/talk.mp4", file_rw)]) [])
           (JStr "p1") (path_of_string "/media/talk.mp4")).
  - right. left. reflexivity.
  - intros [].
Defined.

Lemma search_medias_truthy (medias : list json) (url : json) :
  search_medias medias = Ok (Some url) -> truthy url = true.
Proof.
  induction medias as [| media rest IH]; simpl; [discriminate |].
  unfold rbind.
  destruct (py_get media "operationType" JNull) as [op |]; [| discriminate].
  destruct (eq_str op "OUTPUT"); [| exact IH].
  destruct (py_get media "presignedURL" JNull) as [u |]; [| discriminate].
  destruct (truthy u) eqn:Hu; [| exact IH].
  intros [= <-]. exact Hu.
Qed.

Lemma search_dubs_truthy (dubs : list json) (url : json) :
  search_dubs dubs = Ok (Some url) -> truthy url = true.
Proof.
  induction dubs as [| dub rest IH]; simpl; [discriminate |].
  unfold rbind.
  destruct (py_get dub "medias" (JArr [])) as [m |]; [| discriminate].
  destruct (py_iter m) as [items |]; [| discriminate].
  destruct (search_medias items) as [[u |] |] eqn:Hs; [| exact IH | discriminate].
  intros [= <-]. exact (search_medias_truthy _ _ Hs).
Qed.

Lemma search_translations_truthy (skip_empty : bool) (translations : list json)
    (url : json) :
  search_translations skip_empty translations = Ok (Some url) ->
  truthy url = true.
Proof.
  induction translations as [| t rest IH]; simpl; [discriminate |].
  unfold rbind.
  destruct (py_get t "dub" (JArr [])) as [d |]; [| discriminate].
  destruct (skip_empty && negb (truthy d)); [exact IH |].
  destruct (py_iter d) as [items |]; [| discriminate].
  destruct (search_dubs items) as [[u |] |] eqn:Hs; [| exact IH | discriminate].
  intros [= <-]. exact (search_dubs_truthy _ _ Hs).
Qed.

(** X13.  A download URL found in the project payload is never empty, null,
    zero or false, whatever the payload looks like: both tools hand such a
    value to the download only when it came from the download endpoint,
    whose "url" is used as it is. *)
Theorem payload_url_is_set
    (respond : request -> result json) (project_id : string) (s s' : State)
    (url : json) (server : bool) :
  (if server then resolve_url_server respond project_id s
   else resolve_url_client respond project_id s) = (Ok url, s') ->
  truthy url = true
  \/ (In (Http (GetDownloadUrl project_id)) (st_trace s')
      /\ exists url_data, respond (GetDownloadUrl project_id) = Ok url_data
                          /\ py_item url_data "url" = Ok url).
Proof.
  assert (Hfb : forall no_url s0 s1,
             fallback_url respond project_id no_url s0 = (Ok url, s1) ->
             In (Http (GetDownloadUrl project_id)) (st_trace s1)
             /\ exists url_data, respond (GetDownloadUrl project_id) = Ok url_data
                                 /\ py_item url_data "url" = Ok url).
  { intros no_url s0 s1. unfold fallback_url, bind, http, lift, raise.
    destruct (respond (GetDownloadUrl project_id)) as [u | e]; [| discriminate].
    destruct (py_contains "url" u) as [b | e]; [| discriminate].
    destruct (negb b); [discriminate |].
    destruct (py_item u "url") as [v | e] eqn:Hv; [| discriminate].
    intros [= <- <-]. simpl. split.
    - apply in_or_app. right. left. reflexivity.
    - exists u. auto. }
  destruct server.
  - unfold resolve_url_server, bind, http, lift, ret, make_error.
    destruct (respond (GetProject project_id)) as [d | e]; [| discriminate].
    destruct (py_get d "translations" (JArr [])) as [ts | e]; [| discriminate].
    destruct (negb (truthy ts)); [discriminate |].
    destruct (py_iter ts) as [items | e]; [| discriminate].
    destruct (search_translations true items) as [[u |] | e] eqn:Hs;
      [| | discriminate].
    + intros [= <- _]. left. exact (search_translations_truthy _ _ _ Hs).
    + intros H. right. exact (Hfb _ _ _ H).
  - unfold resolve_url_client, bind, http, lift, ret.
    destruct (respond (GetProject project_id)) as [d | e]; [| discriminate].
    destruct (py_get d "translations" (JArr [])) as [ts | e]; [| discriminate].
    destruct (py_iter ts) as [items | e]; [| discriminate].
    destruct (search_translations false items) as [[u |] | e] eqn:Hs;
      [| | discriminate].
    + intros [= <- _]. left. exact (search_translations_truthy _ _ _ Hs).
    + intros H. right. exact (Hfb _ _ _ H).
Qed.

Lemma payload_url_is_set_witness :
  truthy (JStr "https://cdn/out.mp4") = true
  \/ (In (Http (GetDownloadUrl "p1")) [Http (GetProject "p1")]
      /\ exists url_data,
           project_remote two_translations JNull (GetDownloadUrl "p1") = Ok url_data
           /\ py_item url_data "url" = Ok (JStr "https://cdn/out.mp4")).
Proof.
  exact (payload_url_is_set (project_remote two_translations JNull) "p1"
           desktop_state (mkState (st_fs desktop_state) [Http (GetProject "p1")])
           (JStr "https://cdn/out.mp4") true eq_refl).
Defined.

(* ===================================================================== *)
(** ** client.py: where [download_result] writes *)
(* ===================================================================== *)

(** X19.  [SpeechlabClient.download_result], for a project id without a
    slash, saves the file directly in the output directory (the one given,
    or "~/Desktop"), under a name that holds the whole project id:
    "dub_project_<id>_<timestamp>.mp4"; the path it returns is the path it
    wrote to. *)
Theorem download_result_file_names_project
    (respond : request -> result json) (env : Env) (now : datetime)
    (project_id : string) (output_directory : option string) (s : State)
    (text : string) :
  no_char slash project_id = true ->
  fst (download_result respond env now project_id output_directory s) = Ok text ->
  let out :=
    path_of_string
      (expanduser env (if nonempty output_directory
                       then match output_directory with
                            | Some d => d
                            | None => ""
                            end
                       else "~/Desktop")) in
  let target :=
    mkPath (anchor out)
      (parts out ++ ["dub_project_" ++ project_id ++ "_"
                     ++ strftime_date_time now ++ ".mp4"]) in
  text = path_str target
  /\ parent target = out
  /\ In (WriteFile target)
        (st_trace (snd (download_result respond env now project_id
                          output_directory s))).
Proof.
  intros Hid Hok out target.
  assert (Hname :
            path_of_string ("dub_project_" ++ project_id ++ "_"
                            ++ strftime_date_time now ++ ".mp4")
            = mkPath 0 ["dub_project_" ++ project_id ++ "_"
                        ++ strftime_date_time now ++ ".mp4"]).
  { apply path_of_string_single.
    - rewrite !no_char_append, Hid, no_slash_strftime. reflexivity.
    - rewrite !length_append, strftime_date_time_length. simpl. lia. }
  assert (Hjoin :
            path_join out
              (path_of_string ("dub_project_" ++ project_id ++ "_"
                               ++ strftime_date_time now ++ ".mp4"))
            = target).
  { rewrite Hname. reflexivity. }
  revert Hok. unfold download_result, try_except_HTTPStatusError, bind.
  destruct (resolve_url_client respond project_id s) as [[url | e] s1].
  2:{ destruct (exn_cls e); discriminate. }
  unfold http. destruct (respond (GetUrl url)) as [content | e].
  2:{ destruct (exn_cls e); discriminate. }
  unfold on_fs. cbn [st_fs st_trace]. fold out.
  destruct (mkdir out true (st_fs s1)) as [[[] | e] fs'].
  2:{ destruct (exn_cls e); discriminate. }
  rewrite Hjoin. unfold write_file, ret. cbn [st_fs st_trace].
  destruct (open_wb fs' target) as [p | e].
  2:{ cbv beta iota. destruct (exn_cls e); discriminate. }
  cbv beta iota. cbn [fst snd st_trace]. intros [= <-].
  split; [reflexivity |]. split.
  - unfold target, parent. cbn [anchor parts]. rewrite removelast_last.
    destruct out; reflexivity.
  - apply in_or_app. right. left. reflexivity.
Qed.

Lemma download_result_file_names_project_witness :
  "/home/u/Desktop/dub_project_p1_20240307_120000.mp4"
  = path_str
      (mkPath (anchor (path_of_string (expanduser (plain_env None) "~/Desktop")))
         (parts (path_of_string (expanduser (plain_env None) "~/Desktop"))
          ++ ["dub_project_" ++ "p1" ++ "_" ++ strftime_date_time noon ++ ".mp4"])).
Proof.
  exact (proj1 (download_result_file_names_project
                  (project_remote two_translations JNull) (plain_env None) noon
                  "p1" None desktop_state _ eq_refl eq_refl)).
Defined.

(* ===================================================================== *)
(** ** server.py: what the status tool announces, the download finds *)
(* ===================================================================== *)

Import Server.

Example status_of_two_translations :
  fst (check_dubbing_status (project_remote two_translations JNull) "p1"
         desktop_state)
  = Ok (mkReport "p1" (JStr "UNKNOWN") "0%" (JStr "Unknown") (Some 2) false).
Proof. reflexivity. Qed.

(** The first OUTPUT media, when it has a presigned URL, is what the search
    of the download finds in the same medias. *)
Lemma next_output_found_by_search (items : list json) (m url : json) :
  next_output items = Ok (Some m) ->
  py_get m "presignedURL" JNull = Ok url ->
  truthy url = true ->
  search_medias items = Ok (Some url).
Proof.
  intros Hnext Hurl Htrue.
  induction items as [| x rest IH]; simpl in *; [discriminate |].
  unfold rbind in *.
  destruct (py_get x "operationType" JNull) as [op |]; [| discriminate].
  destruct (eq_str op "OUTPUT").
  - injection Hnext as ->. rewrite Hurl, Htrue. reflexivity.
  - apply IH. exact Hnext.
Qed.

Lemma py_first_of_dict_list (v first : json) (k : string) (dflt got : json) :
  py_first v = Ok first ->
  py_get first k dflt = Ok got ->
  exists rest, v = JArr (first :: rest).
Proof.
  destruct v as [| | | s | l |]; simpl; try discriminate.
  - destruct s; [discriminate |]. intros [= <-]. discriminate.
  - destruct l as [| x l]; [discriminate |]. intros [= <-] _. eauto.
Qed.

(** X14.  When [check_dubbing_status] announces "Output media available for
    download", both download tools find their URL in the payload of that
    same project state: the URL is set, and the download endpoint is not
    asked. *)
Theorem announced_output_is_found
    (respond : request -> result json) (project_id : string)
    (s : State) (report : StatusReport) :
  fst (check_dubbing_status respond project_id s) = Ok report ->
  report_output_available report = true ->
  exists url,
    truthy url = true
    /\ resolve_url_server respond project_id s
       = (Ok url, mkState (st_fs s) (st_trace s ++ [Http (GetProject project_id)]))
    /\ resolve_url_client respond project_id s
       = (Ok url, mkState (st_fs s) (st_trace s ++ [Http (GetProject project_id)])).
Proof.
  intros Hok Havail. unfold check_dubbing_status in Hok.
  apply tool_handlers_ok in Hok. revert Hok.
  unfold bind, http, lift, ret. simpl.
  destruct (respond (GetProject project_id)) as [d | e] eqn:Hresp;
    [| discriminate].
  simpl.
  destruct (py_get d "job" (JObj [])) as [job | e]; [| discriminate]. simpl.
  destruct (py_get job "status" (JStr "UNKNOWN")) as [st | e]; [| discriminate].
  simpl.
  destruct (py_get d "translations" (JArr [])) as [ts | e] eqn:Hts;
    [| discriminate].
  simpl.
  destruct (dub_details ts) as [[[dub_status count] avail] | e] eqn:Hdet;
    [| discriminate].
  simpl. intros [= <-]. simpl in Havail. subst avail.
  revert Hdet. unfold dub_details, rbind.
  destruct (truthy ts) eqn:Htts; [| discriminate].
  destruct (py_first ts) as [t0 | e] eqn:Ht0; [| discriminate].
  destruct (py_get t0 "dub" (JArr [])) as [dubs | e] eqn:Hdubs; [| discriminate].
  destruct (truthy dubs) eqn:Htd; [| discriminate].
  destruct (py_first dubs) as [d0 | e] eqn:Hd0; [| discriminate].
  destruct (py_get d0 "mergeStatus" (JStr "Unknown")) as [ms | e] eqn:Hms;
    [| discriminate].
  destruct (py_get d0 "medias" (JArr [])) as [medias | e] eqn:Hmed;
    [| discriminate].
  destruct (truthy medias) eqn:Htm; [| discriminate].
  destruct (py_len medias) as [n | e]; [| discriminate].
  destruct (py_iter medias) as [items | e] eqn:Hitems; [| discriminate].
  destruct (next_output items) as [[m |] | e] eqn:Hnext;
    [| discriminate | discriminate].
  destruct (truthy m); [| discriminate].
  destruct (py_get m "presignedURL" JNull) as [url | e] eqn:Hurl;
    [| discriminate].
  intros [= _ _ Htrue].
  destruct (py_first_of_dict_list ts t0 "dub" (JArr []) dubs Ht0 Hdubs)
    as [trest ->].
  destruct (py_first_of_dict_list dubs d0 "medias" (JArr []) medias Hd0 Hmed)
    as [drest ->].
  pose proof (next_output_found_by_search items m url Hnext Hurl Htrue) as Hsm.
  assert (Hsd : search_dubs (d0 :: drest) = Ok (Some url)).
  { simpl. unfold rbind. rewrite Hmed, Hitems, Hsm. reflexivity. }
  assert (Hst : forall skip,
             search_translations skip (t0 :: trest) = Ok (Some url)).
  { intros skip. simpl search_translations. unfold rbind. rewrite Hdubs.
    rewrite Htd, andb_false_r.
    change (py_iter (JArr (d0 :: drest))) with (Ok (d0 :: drest)).
    cbv beta iota. rewrite Hsd. reflexivity. }
  exists url. split; [exact Htrue |]. split.
  - unfold resolve_url_server, bind, http, lift, ret.
    rewrite Hresp, Hts. simpl truthy. cbv beta iota. simpl negb. cbv beta iota.
    change (py_iter (JArr (t0 :: trest))) with (Ok (t0 :: trest)).
    cbv beta iota. rewrite (Hst true). reflexivity.
  - unfold resolve_url_client, bind, http, lift, ret.
    rewrite Hresp, Hts.
    change (py_iter (JArr (t0 :: trest))) with (Ok (t0 :: trest)).
    cbv beta iota. rewrite (Hst false). reflexivity.
Qed.

Lemma announced_output_is_found_witness :
  exists url,
    truthy url = true
    /\ resolve_url_server (project_remote ready_project JNull) "p1" desktop_state
       = (Ok url, mkState (st_fs desktop_state)
                    (st_trace desktop_state ++ [Http (GetProject "p1")]))
    /\ resolve_url_client (project_remote ready_project JNull) "p1" desktop_state
       = (Ok url, mkState (st_fs desktop_state)
                    (st_trace desktop_state ++ [Http (GetProject "p1")])).
Proof.
  apply (announced_output_is_found (project_remote ready_project JNull) "p1"
           desktop_state
           (mkReport "p1" (JStr "COMPLETE") "100%" (JStr "COMPLETE") (Some 2) true)).
  - reflexivity.
  - reflexivity.
Defined.

(* ===================================================================== *)
(** ** server.py: listing projects *)
(* ===================================================================== *)

Example listing_of_two :
  fst (get_projects
         (listing (JArr [listed_project "p1" "Intro" "COMPLETE";
                         JObj [("id", JStr "p2")]]))
         10 0 desktop_state)
  = Ok ("Retrieved 2 projects:" ++ nl ++ nl
        ++ "ID: p1" ++ nl ++ "Name: Intro" ++ nl ++ "Status: COMPLETE" ++ nl
        ++ "Created: 2024-03-07T12:00:00Z"
        ++ nl ++ nl
        ++ "ID: p2" ++ nl ++ "Name: Unnamed Project" ++ nl ++ "Status: unknown"
        ++ nl ++ "Created: unknown").
Proof. reflexivity. Qed.

Example listing_of_none :
  fst (get_projects (listing (JArr [])) 10 0 desktop_state)
  = Ok "No projects found.".
Proof. reflexivity. Qed.

Lemma format_projects_all (items : list json) (entries : list string) :
  format_projects items = Ok entries ->
  length entries = length items
  /\ forall i item, nth_error items i = Some item ->
                    exists entry, nth_error entries i = Some entry
                                  /\ project_entry item = Ok entry.
Proof.
  revert entries. induction items as [| x rest IH]; intros entries; simpl.
  - intros [= <-]. split; [reflexivity |]. intros [| i] item; discriminate.
  - unfold rbind.
    destruct (project_entry x) as [e |] eqn:Hx; [| discriminate].
    destruct (format_projects rest) as [es |]; [| discriminate].
    intros [= <-]. destruct (IH es eq_refl) as [Hlen Hnth].
    split; [simpl; congruence |].
    intros [| i] item; simpl.
    + intros [= <-]. eauto.
    + apply Hnth.
Qed.

Lemma format_projects_fails (items : list json) (e : pyexn) :
  format_projects items = Raise e ->
  exists item, In item items /\ project_entry item = Raise e.
Proof.
  induction items as [| x rest IH]; simpl; [discriminate |].
  unfold rbind.
  destruct (project_entry x) as [en | e0] eqn:Hx.
  - destruct (format_projects rest) as [es | e1]; [discriminate |].
    intros [= <-]. destruct (IH eq_refl) as [item [Hin Hit]]. eauto.
  - intros [= <-]. eauto.
Qed.

Lemma py_get_raises_Exception (v : json) (k : string) (dflt : json) (e : pyexn) :
  py_get v k dflt = Raise e -> is_Exception e = true.
Proof.
  destruct v; simpl; try (intros [= <-]; reflexivity).
  destruct (assoc k kvs); discriminate.
Qed.

Lemma py_item_raises_Exception (v : json) (k : string) (e : pyexn) :
  py_item v k = Raise e -> is_Exception e = true.
Proof.
  destruct v; simpl; try (intros [= <-]; reflexivity).
  destruct (assoc k kvs); [discriminate | intros [= <-]; reflexivity].
Qed.

Lemma str_field_raises_Exception (v : json) (e : pyexn) :
  str_field v = Raise e -> is_Exception e = true.
Proof. destruct v; simpl; try discriminate; intros [= <-]; reflexivity. Qed.

Lemma dict_field_raises_Exception (v : json) (e : pyexn) :
  dict_field v = Raise e -> is_Exception e = true.
Proof. destruct v; simpl; try discriminate; intros [= <-]; reflexivity. Qed.

Lemma project_entry_raises_Exception (item : json) (e : pyexn) :
  project_entry item = Raise e -> is_Exception e = true.
Proof.
  unfold project_entry, rbind.
  repeat match goal with
         | |- match ?r with Ok _ => _ | Raise _ => _ end = Raise _ -> _ =>
             let H := fresh "H" in
             destruct r eqn:H;
             [| intros [= <-];
                first [ exact (py_get_raises_Exception _ _ _ _ H)
                      | exact (py_item_raises_Exception _ _ _ H)
                      | exact (str_field_raises_Exception _ _ H)
                      | exact (dict_field_raises_Exception _ _ H) ] ]
         end.
  discriminate.
Qed.

(** X15.  [get_projects] lists all the projects of the answer or none: when
    the "results" of the answer is a non-empty list, the text has one entry
    per project, in the order of the answer, under a header that counts
    them; and as soon as one project cannot be formatted (no "id", a "job"
    that is no dict, a field that is no str) the whole call raises
    [SpeechlabMcpError] and nothing is listed. *)
Theorem get_projects_all_or_nothing
    (answer : call -> result json) (limit offset : Z) (s : State)
    (projects_data : json) (first : json) (others : list json) :
  answer (GetProjects limit offset) = Ok projects_data ->
  py_get projects_data "results" (JArr []) = Ok (JArr (first :: others)) ->
  snd (get_projects answer limit offset s) = s
  /\ match fst (get_projects answer limit offset s) with
     | Ok text =>
         exists entries,
           length entries = S (length others)
           /\ (forall i item, nth_error (first :: others) i = Some item ->
                              exists entry, nth_error entries i = Some entry
                                            /\ project_entry item = Ok entry)
           /\ text = "Retrieved " ++ string_of_Z (Z.of_nat (S (length others)))
                     ++ " projects:" ++ nl ++ nl ++ join (nl ++ nl) entries
     | Raise e =>
         exn_cls e = SpeechlabMcpError
         /\ exists item e0, In item (first :: others)
                            /\ project_entry item = Raise e0
     end.
Proof.
  intros Hans Hres. unfold get_projects.
  match goal with
  | |- context [tool_handlers ?c ?b s] => set (body := b)
  end.
  assert (Hbody :
            body s
            = (match format_projects (first :: others) with
               | Ok entries =>
                   Ok ("Retrieved " ++ string_of_Z (Z.of_nat (length entries))
                       ++ " projects:" ++ nl ++ nl ++ join (nl ++ nl) entries)
               | Raise e => Raise e
               end, s)).
  { unfold body, bind, lift, ret. rewrite Hans. cbv beta iota.
    rewrite Hres. cbn [rbind py_len truthy negb py_iter].
    destruct (format_projects (first :: others)); reflexivity. }
  rewrite tool_handlers_state. unfold tool_handlers. rewrite Hbody.
  split; [reflexivity |].
  destruct (format_projects (first :: others)) as [entries | e] eqn:Hfmt.
  - simpl fst.
    destruct (format_projects_all (first :: others) entries Hfmt) as [Hlen Hnth].
    exists entries. simpl in Hlen. rewrite Hlen.
    split; [reflexivity |]. split; [exact Hnth | reflexivity].
  - destruct (format_projects_fails (first :: others) e Hfmt)
      as [item [Hin Hit]].
    pose proof (project_entry_raises_Exception item e Hit) as Hexc.
    destruct (exn_cls e) eqn:Hcls; rewrite ?Hexc; simpl;
      (split; [reflexivity | eauto]).
Qed.

Lemma get_projects_all_or_nothing_witness :
  snd (get_projects
         (listing (JArr [listed_project "p1" "Intro" "COMPLETE";
                         JObj [("name", JStr "no id")]]))
         10 0 desktop_state) = desktop_state
  /\ match fst (get_projects
                  (listing (JArr [listed_project "p1" "Intro" "COMPLETE";
                                  JObj [("name", JStr "no id")]]))
                  10 0 desktop_state) with
     | Ok text =>
         exists entries,
           length entries = 2
           /\ (forall i item,
                 nth_error [listed_project "p1" "Intro" "COMPLETE";
                            JObj [("name", JStr "no id")]] i = Some item ->
                 exists entry, nth_error entries i = Some entry
                               /\ project_entry item = Ok entry)
           /\ text = "Retrieved " ++ string_of_Z 2 ++ " projects:" ++ nl ++ nl
                     ++ join (nl ++ nl) entries
     | Raise e =>
         exn_cls e = SpeechlabMcpError
         /\ exists item e0,
              In item [listed_project "p1" "Intro" "COMPLETE";
                       JObj [("name", JStr "no id")]]
              /\ project_entry item = Raise e0
     end.
Proof.
  exact (get_projects_all_or_nothing
           (listing (JArr [listed_project "p1" "Intro" "COMPLETE";
                           JObj [("name", JStr "no id")]]))
           10 0 desktop_state
           (JObj [("results", JArr [listed_project "p1" "Intro" "COMPLETE";
                                    JObj [("name", JStr "no id")]])])
           (listed_project "p1" "Intro" "COMPLETE")
           [JObj [("name", JStr "no id")]] eq_refl eq_refl).
Defined.

(** A "results" that is null has no length: the call fails in the log line,
    before "No projects found." can be answered. *)
Example null_results_is_an_error :
  match fst (get_projects (listing JNull) 10 0 desktop_state) with
  | Raise e => exn_cls e = SpeechlabMcpError
  | Ok _ => False
  end.
Proof. reflexivity. Qed.

(* ===================================================================== *)
(** ** Sharing links and the client's upload *)
(* ===================================================================== *)

(** X16.  Both [generate_sharing_link], the tool of server.py and the method
    of client.py, succeed on exactly the same answers: those that are a dict
    with a "link" key, whose value is handed on as it is, a null or empty
    one included.  An answer of any other kind, and a dict without "link",
    makes both raise. *)
Theorem generate_sharing_link_needs_link_key
    (answer : call -> result json) (project_id : string) (s : State)
    (link : json) :
  (fst (generate_sharing_link answer project_id s) = Ok link
   <-> exists kvs, answer (PostSharingLink project_id) = Ok (JObj kvs)
                   /\ assoc "link" kvs = Some link)
  /\ (fst (client_generate_sharing_link answer project_id s) = Ok link
      <-> exists kvs, answer (PostSharingLink project_id) = Ok (JObj kvs)
                      /\ assoc "link" kvs = Some link).
Proof.
  assert (Hlink : forall link_data no_link,
             sharing_link_of link_data no_link = Ok link
             <-> exists kvs, link_data = JObj kvs /\ assoc "link" kvs = Some link).
  { intros link_data no_link. unfold sharing_link_of, rbind, py_contains, py_item.
    destruct link_data as [| b | z | str | l | kvs]; simpl;
      try (split; [discriminate | intros [kvs [H _]]; discriminate]).
    - destruct (match index 0 "link" str with Some _ => true | None => false end);
        simpl; split; try discriminate; intros [kvs [H _]]; discriminate.
    - destruct (existsb _ l); simpl;
        split; try discriminate; intros [kvs [H _]]; discriminate.
    - destruct (assoc "link" kvs) as [v |] eqn:Hv; simpl.
      + split.
        * intros [= <-]. exists kvs. auto.
        * intros [kvs' [[= <-] H]]. congruence.
      + split; [discriminate |].
        intros [kvs' [[= <-] H]]. congruence. }
  split.
  - unfold generate_sharing_link, tool_handlers, bind, lift.
    destruct (answer (PostSharingLink project_id)) as [link_data | e]; simpl.
    + specialize (Hlink link_data (PyExn SpeechlabMcpError no_link_message)).
      destruct (sharing_link_of link_data _) as [v | e] eqn:Hs; simpl.
      * rewrite Hlink. split.
        -- intros [kvs [-> H]]. exists kvs. auto.
        -- intros [kvs [[= ->] H]]. exists kvs. auto.
      * split.
        -- destruct (exn_cls e); simpl; try discriminate;
             destruct (is_Exception e); discriminate.
        -- intros [kvs [[= ->] H]].
           assert (Hc : Raise e = Ok link) by (apply Hlink; eauto).
           discriminate.
    + split; [| intros [kvs [H _]]; discriminate].
      destruct (exn_cls e); simpl; try discriminate;
        destruct (is_Exception e); discriminate.
  - unfold client_generate_sharing_link, try_except_HTTPStatusError, bind,
      lift, raise.
    destruct (answer (PostSharingLink project_id)) as [link_data | e]; simpl.
    + specialize (Hlink link_data (PyExn ValueError no_link_message)).
      destruct (sharing_link_of link_data _) as [v | e] eqn:Hs; simpl.
      * rewrite Hlink. split.
        -- intros [kvs [-> H]]. exists kvs. auto.
        -- intros [kvs [[= ->] H]]. exists kvs. auto.
      * split.
        -- destruct (exn_cls e); discriminate.
        -- intros [kvs [[= ->] H]].
           assert (Hc : Raise e = Ok link) by (apply Hlink; eauto).
           discriminate.
    + split; [| intros [kvs [H _]]; discriminate].
      destruct (exn_cls e); discriminate.
Qed.

Lemma generate_sharing_link_needs_link_key_witness :
  fst (client_generate_sharing_link (listing JNull) "p1" desktop_state)
  = Ok (JStr "https://share/p1").
Proof.
  apply (proj2 (generate_sharing_link_needs_link_key (listing JNull) "p1"
                  desktop_state (JStr "https://share/p1"))).
  exists [("link", JStr "https://share/p1")]. split; reflexivity.
Defined.

Example null_link_is_a_success :
  fst (generate_sharing_link (fun _ => Ok (JObj [("link", JNull)])) "p1"
         desktop_state) = Ok JNull.
Proof. reflexivity. Qed.

(** X17.  [SpeechlabClient.upload_media] checks that the path exists and
    nothing more: for a path that does not exist it raises [ValueError] and
    sends nothing; for any existing regular file it sends the upload,
    whatever the extension and whether or not the path is absolute.  So every
    file the server tool's [handle_input_file] accepts is uploaded by the
    client too. *)
Theorem client_upload_media_checks_existence_only
    (respond : request -> result json) (env : Env)
    (project_id file_path : string) (s : State) :
  let file := path_of_string file_path in
  let sent := mkState (st_fs s)
                (st_trace s ++ [Http (PostUpload (JStr project_id) file)]) in
  (fs_exists (st_fs s) file = false ->
   client_upload_media respond project_id file_path s
   = (Raise (PyExn ValueError ("File does not exist: " ++ file_path)), s))
  /\ (fs_is_file (st_fs s) file = true ->
      snd (client_upload_media respond project_id file_path s) = sent
      /\ forall upload_data,
           respond (PostUpload (JStr project_id) file) = Ok upload_data ->
           fst (client_upload_media respond project_id file_path s)
           = Ok upload_data)
  /\ (forall accepted,
        handle_input_file env (st_fs s) file_path true = Ok accepted ->
        snd (client_upload_media respond project_id file_path s) = sent).
Proof.
  intros file sent.
  assert (Hfile : fs_is_file (st_fs s) file = true ->
                  client_upload_media respond project_id file_path s
                  = (respond (PostUpload (JStr project_id) file), sent)).
  { intros Hf. unfold fs_is_file in Hf. subst sent. subst file.
    unfold client_upload_media, try_except_HTTPStatusError, bind, read_fs,
      open_rb, http, raise, ret, fs_exists, fs_is_dir.
    cbn [st_fs st_trace].
    destruct (st_fs s (path_of_string file_path)) as [n |] eqn:Hn;
      [| discriminate].
    cbn [negb]. cbv beta iota. rewrite ?Hn.
    destruct (is_dir n); [discriminate |]. cbv beta iota. cbn [st_fs st_trace].
    destruct (respond (PostUpload (JStr project_id) (path_of_string file_path)))
      as [u | e]; [reflexivity |].
    destruct (exn_cls e); reflexivity. }
  split; [| split].
  - intros Hno.
    unfold client_upload_media, try_except_HTTPStatusError, bind, read_fs,
      raise. simpl. fold file. rewrite Hno. reflexivity.
  - intros Hf. rewrite (Hfile Hf). split; [reflexivity |].
    intros upload_data ->. reflexivity.
  - intros accepted Hok. rewrite Hfile; [reflexivity |].
    unfold handle_input_file, make_error in Hok. fold file in Hok.
    destruct (negb (isabs file_path) && negb (nonempty (base_path env)));
      [discriminate |].
    destruct (negb (fs_exists (st_fs s) file)); [discriminate |].
    destruct (fs_is_file (st_fs s) file); [reflexivity | discriminate].
Qed.

Lemma client_upload_media_checks_existence_only_witness :
  snd (client_upload_media echo_remote "p1" "notes.txt"
         (mkState (fs_of [("notes.txt", file_rw)]) []))
  = mkState (fs_of [("notes.txt", file_rw)])
      [Http (PostUpload (JStr "p1") (path_of_string "notes.txt"))].
Proof.
  exact (proj1 (proj1 (proj2 (client_upload_media_checks_existence_only
                                echo_remote (plain_env None) "p1" "notes.txt"
                                (mkState (fs_of [("notes.txt", file_rw)]) [])))
                  eq_refl)).
Defined.

(* ===================================================================== *)
(** ** server.py: what a tool can raise *)
(* ===================================================================== *)

Lemma tool_handlers_raise_class {A} (context : string) (body : M State A)
    (s : State) (e : pyexn) :
  fst (tool_handlers context body s) = Raise e ->
  is_Exception e = true ->
  exn_cls e = SpeechlabMcpError.
Proof.
  unfold tool_handlers. destruct (body s) as [[a | e0] s']; [discriminate |].
  destruct (exn_cls e0) eqn:Hcls; simpl;
    try (intros [= <-]; reflexivity);
    destruct (is_Exception e0) eqn:Hex; simpl;
    try (intros [= <-]; reflexivity);
    intros [= <-] H; congruence.
Qed.

(** X18.  The tools of server.py let no error of the HTTP layer, no
    [KeyError], [AttributeError], [TypeError] or validation error out: every
    instance of [Exception] raised while a tool runs reaches the caller as a
    [SpeechlabMcpError].  Only what is no instance of [Exception] passes
    unchanged. *)
Theorem server_tools_raise_SpeechlabMcpError
    (respond : request -> result json) (answer : call -> result json)
    (env : Env) (now : datetime) (s : State) (e : pyexn) :
  is_Exception e = true ->
  (forall name source_language target_language source_file,
     fst (create_project_and_dub respond env now name source_language
            target_language source_file s) = Raise e ->
     exn_cls e = SpeechlabMcpError)
  /\ (forall project_id file_path,
        fst (upload_media respond env project_id file_path s) = Raise e ->
        exn_cls e = SpeechlabMcpError)
  /\ (forall project_id output_directory,
        fst (download_dubbing_result respond env now project_id
               output_directory s) = Raise e ->
        exn_cls e = SpeechlabMcpError)
  /\ (forall project_id,
        fst (check_dubbing_status respond project_id s) = Raise e ->
        exn_cls e = SpeechlabMcpError)
  /\ (forall limit offset,
        fst (get_projects answer limit offset s) = Raise e ->
        exn_cls e = SpeechlabMcpError)
  /\ (forall project_id,
        fst (generate_sharing_link answer project_id s) = Raise e ->
        exn_cls e = SpeechlabMcpError).
Proof.
  intros Hex.
  repeat split; intros; eapply tool_handlers_raise_class; eauto.
Qed.

Lemma server_tools_raise_SpeechlabMcpError_witness :
  exn_cls (PyExn SpeechlabMcpError "HTTP error occurred: 503 - busy")
  = SpeechlabMcpError.
Proof.
  exact (proj1 (server_tools_raise_SpeechlabMcpError
                  (fun _ => Raise (MkExn HTTPStatusError "Server error"
                                     (Some (503%Z, "busy"))))
                  (fun _ => Ok JNull) (plain_env None) noon desktop_state
                  (PyExn SpeechlabMcpError "HTTP error occurred: 503 - busy")
                  eq_refl)
           "demo" "en" "fr" None eq_refl).
Defined.
